(** * Cribl-Microsoft: the directory-to-lookup sync and the search-to-table scripts

    A shallow embedding of
      - Lookups/DynamicLookups/ActiveDirectory/main.py
      - KnowledgeArticles/PowerBI_CriblSearch/PowerBI_CriblSearch.py
    and the properties their specification states about them.

    Python values are modelled as follows.  A [str] is a [string] whose
    characters are code points below 256.  [None] for an optional string is
    [None : option string].  An exception is a value of [exn]; code that may
    raise returns a [result].  The network, the directory server and the clock
    are inputs (a response, a list of entries, what the status request of
    each attempt comes to) and outputs (a trace of events, a list of written
    files). *)

From Stdlib Require Import ZArith Ascii String List Lia Bool.
From Stdlib Require Import Floats.SpecFloat.
From stdpp Require Import base option list gmap strings.

Local Open Scope string_scope.
Set Warnings "-register-all".

(** ** Python strings *)

Module PyStr.

(** [str.isspace] on one code point below 256. *)
Definition isspace (c : ascii) : bool :=
  match nat_of_ascii c with
  | 9 | 10 | 11 | 12 | 13 | 28 | 29 | 30 | 31 | 32 | 133 | 160 => true
  | _ => false
  end.

Definition is_empty (s : string) : bool :=
  match s with EmptyString => true | String _ _ => false end.

(** Truthiness of a [str]: [not s] is [negb (truthy s)]. *)
Definition truthy (s : string) : bool := negb (is_empty s).

(** [a or b] on strings. *)
Definition or_else (a b : string) : string := if truthy a then a else b.

Fixpoint lstrip (s : string) : string :=
  match s with
  | EmptyString => EmptyString
  | String c s' => if isspace c then lstrip s' else s
  end.

Fixpoint rstrip (s : string) : string :=
  match s with
  | EmptyString => EmptyString
  | String c s' =>
      let r := rstrip s' in
      if isspace c && is_empty r then EmptyString else String c r
  end.

(** [s.strip()] *)
Definition strip (s : string) : string := rstrip (lstrip s).

(** [c in s] for a one-character [c]. *)
Fixpoint contains (c : ascii) (s : string) : bool :=
  match s with
  | EmptyString => false
  | String d s' => if Ascii.eqb d c then true else contains c s'
  end.

(** [s.partition(c)] without the separator: the text before the first [c]
    and, when there is a [c], the text after it. *)
Fixpoint cut (c : ascii) (s : string) : string * option string :=
  match s with
  | EmptyString => (EmptyString, None)
  | String d s' =>
      if Ascii.eqb d c then (EmptyString, Some s')
      else let '(a, b) := cut c s' in (String d a, b)
  end.

(** [s.split(c, 1)] for a one-character separator. *)
Definition split1 (c : ascii) (s : string) : list string :=
  match cut c s with
  | (a, None) => [a]
  | (a, Some b) => [a; b]
  end.

(** [s.split(c)] for a one-character separator. *)
Fixpoint split (c : ascii) (s : string) : list string :=
  match s with
  | EmptyString => [EmptyString]
  | String d s' =>
      if Ascii.eqb d c then EmptyString :: split c s'
      else match split c s' with
           | [] => [String d EmptyString]
           | w :: ws => String d w :: ws
           end
  end.

(** [s.startswith(p)] *)
Definition startswith (s p : string) : bool := String.prefix p s.

(** [s.endswith(p)] *)
Definition endswith (s p : string) : bool :=
  let n := String.length s in
  let k := String.length p in
  (k <=? n)%nat && String.eqb (String.substring (n - k) k s) p.

(** [sep.join(l)] *)
Fixpoint join (sep : string) (l : list string) : string :=
  match l with
  | [] => EmptyString
  | [x] => x
  | x :: xs => x ++ sep ++ join sep xs
  end.

(** [s.lower()] on code points below 256. *)
Definition lower_char (c : ascii) : ascii :=
  let n := nat_of_ascii c in
  if ((65 <=? n) && (n <=? 90) || (192 <=? n) && (n <=? 222) && negb (n =? 215))%nat
  then ascii_of_nat (n + 32)
  else c.

Fixpoint lower (s : string) : string :=
  match s with
  | EmptyString => EmptyString
  | String c s' => String (lower_char c) (lower s')
  end.

(** [s.isspace()] on every character of [s]. *)
Fixpoint all_space (s : string) : bool :=
  match s with
  | EmptyString => true
  | String c s' => isspace c && all_space s'
  end.

End PyStr.

(** ** Exceptions, results and JSON values *)

Inductive exn : Type :=
  | ValueError (msg : string)
  | KeyError (key : string)
  | IndexError (msg : string)
  | TypeError (msg : string)
  | AttributeError (msg : string)
  | RequestException (msg : string)
  | ConfigParserError (msg : string)
  | Exception (msg : string).

(** [str(e)] *)
Definition exn_str (e : exn) : string :=
  match e with
  | ValueError m | IndexError m | TypeError m | AttributeError m
  | RequestException m | ConfigParserError m | Exception m => m
  | KeyError k => "'" ++ k ++ "'"
  end.

Inductive result (A : Type) : Type :=
  | Ok (a : A)
  | Raise (e : exn).
Arguments Ok {A} a.
Arguments Raise {A} e.

Definition bind {A B} (r : result A) (k : A -> result B) : result B :=
  match r with
  | Ok a => k a
  | Raise e => Raise e
  end.

(** What [json.loads] and [response.json()] return: [dict], [list], [str],
    [int], [float], [bool] and [None].  A [dict] is kept as the list of its
    items in insertion order, its keys distinct. *)
Inductive json : Type :=
  | JNull
  | JBool (b : bool)
  | JInt (n : Z)
  | JFloat (f : spec_float)
  | JStr (s : string)
  | JList (l : list json)
  | JDict (d : list (string * json)).

Module Json.

(** [bool(v)] *)
Definition truthy (v : json) : bool :=
  match v with
  | JNull => false
  | JBool b => b
  | JInt n => negb (n =? 0)%Z
  | JFloat f => match f with S754_zero _ => false | _ => true end
  | JStr s => PyStr.truthy s
  | JList l => match l with [] => false | _ :: _ => true end
  | JDict d => match d with [] => false | _ :: _ => true end
  end.

(** [d.get(key)] on the items of a [dict]. *)
Fixpoint dict_get (key : string) (d : list (string * json)) : option json :=
  match d with
  | [] => None
  | (k, v) :: d' => if String.eqb k key then Some v else dict_get key d'
  end.

(** [v == s] for a [str] [s], where [v] is what [d.get] returned. *)
Definition eq_str (v : option json) (s : string) : bool :=
  match v with
  | Some (JStr t) => String.eqb t s
  | _ => false
  end.

(** [sub in s] on strings. *)
Fixpoint is_substring (sub s : string) : bool :=
  String.prefix sub s ||
  match s with
  | EmptyString => false
  | String _ s' => is_substring sub s'
  end.

Definition is_str (s : string) (v : json) : bool :=
  match v with JStr t => String.eqb t s | _ => false end.

(** [v[key]] for a [str] [key]. *)
Definition subscript (key : string) (v : json) : result json :=
  match v with
  | JDict d =>
      match dict_get key d with
      | Some x => Ok x
      | None => Raise (KeyError key)
      end
  | JList _ => Raise (TypeError "list indices must be integers or slices, not str")
  | JStr _ => Raise (TypeError "string indices must be integers, not 'str'")
  | _ => Raise (TypeError "object is not subscriptable")
  end.

(** [v[0]] *)
Definition first_item (v : json) : result json :=
  match v with
  | JList (x :: _) => Ok x
  | JList [] => Raise (IndexError "list index out of range")
  | JStr (String c _) => Ok (JStr (String c EmptyString))
  | JStr EmptyString => Raise (IndexError "string index out of range")
  | JDict _ => Raise (KeyError "0")
  | _ => Raise (TypeError "object is not subscriptable")
  end.

End Json.

(** ** The [requests] calls *)

(** What a [requests] call comes to: an exception of the library
    (connection, timeout, a body that is no JSON), or a response with its
    status code and its body, the body being the JSON document
    [response.json()] decodes. *)
Inductive http_outcome : Type :=
  | HttpFailed (msg : string)
  | HttpResponse (status_code : Z) (body : json).

(** [response = requests.xxx(...); response.raise_for_status();
    response.json()] *)
Definition request_json (o : http_outcome) : result json :=
  match o with
  | HttpFailed msg => Raise (RequestException msg)
  | HttpResponse status_code body =>
      if ((400 <=? status_code) && (status_code <? 600))%Z
      then Raise (RequestException "HTTPError")
      else Ok body
  end.

(** ** Lookups/DynamicLookups/ActiveDirectory/main.py *)

Module ActiveDirectory.
Import PyStr.

(** *** Arguments and configuration *)

(** The namespace [parse_arguments] returns: a flag that was not given is
    [None], a flag that was given holds its text, which may be empty. *)
Record Args : Type := {
  args_client_id : option string;
  args_client_secret : option string;
  args_organization_id : option string;
  args_lookup_filename : option string;
  args_ad_server : option string;
  args_ad_user : option string;
  args_ad_password : option string;
  args_ad_domain : option string;
  args_ad_search_domain : option string;
  args_target_group : option string
}.

(** A parsed configuration: section name to option name to value. *)
Abbreviation ini := (gmap string (gmap string string)).

(** The options of the [cribl] section of [defaults]. *)
Definition cribl_defaults : gmap string string :=
  list_to_map
    [ ("client_id", EmptyString);
      ("client_secret", EmptyString);
      ("organization_id", EmptyString);
      ("lookup_filename", EmptyString);
      ("target_worker_group", "default");
      ("ad_server", EmptyString);
      ("ad_user", EmptyString);
      ("ad_password", EmptyString);
      ("ad_domain", EmptyString);
      ("ad_search_domain", EmptyString) ].

Definition defaults : ini := {[ "cribl" := cribl_defaults ]}.

(** [config.read_dict(src)] and [config.read(path)]: every option of the
    source is set in its section, options already there and not in the
    source stay. *)
Definition read_into (config src : ini) : ini :=
  union_with (fun new old => Some (new ∪ old)) src config.

(** [config[section]]: the options of the section, those of the DEFAULT
    section behind them.  The values are the raw ones; reading one through
    [getitem] interpolates it. *)
Definition section (config : ini) (name : string) : gmap string string :=
  default ∅ (config !! name) ∪ default ∅ (config !! "DEFAULT").

(** [load_config(config_path)].  [file] is what the file at [config_path]
    parses to, [None] when there is no such file. *)
Definition load_config (file : option ini) : gmap string string :=
  let config := read_into ∅ defaults in
  let config :=
    match file with
    | Some parsed => read_into config parsed
    | None => config
    end in
  section config "cribl".

(** The errors of [BasicInterpolation], subclasses of [configparser.Error]. *)
Definition interpolation_syntax_error : exn :=
  ConfigParserError "InterpolationSyntaxError".

Definition interpolation_missing_option_error : exn :=
  ConfigParserError "InterpolationMissingOptionError".

Definition interpolation_depth_error : exn :=
  ConfigParserError "InterpolationDepthError".

Definition percent : ascii := "%"%char.
Definition open_paren : ascii := "("%char.
Definition close_paren : ascii := ")"%char.

(** [MAX_INTERPOLATION_DEPTH] *)
Definition max_interpolation_depth : nat := 10.

(** The [while rest:] loop of [BasicInterpolation._interpolate_some], read
    one character at a time.  Outside a reference ([name] is [None]) a
    percent sign must be followed by another one, which gives one percent
    sign, or by an opening parenthesis, which starts a reference.  Inside a
    reference ([name] holds the characters read since the parenthesis) the
    name runs up to the first closing parenthesis, must not be empty and
    must be followed by the letter s; the value of the option of that name
    (lower case, as [optionxform] makes it) takes its place, interpolated in
    turn by [deeper] when it holds a percent sign. *)
Fixpoint interpolate_scan (deeper : string -> result string)
    (map : gmap string string) (name : option string) (rest : string)
    : result string :=
  match name with
  | None =>
      match rest with
      | EmptyString => Ok EmptyString
      | String c rest' =>
          if Ascii.eqb c percent then
            match rest' with
            | EmptyString => Raise interpolation_syntax_error
            | String c' rest'' =>
                if Ascii.eqb c' percent then
                  bind (interpolate_scan deeper map None rest'') (fun tail =>
                  Ok (String percent tail))
                else if Ascii.eqb c' open_paren then
                  interpolate_scan deeper map (Some EmptyString) rest''
                else Raise interpolation_syntax_error
            end
          else
            bind (interpolate_scan deeper map None rest') (fun tail =>
            Ok (String c tail))
      end
  | Some var =>
      match rest with
      | EmptyString => Raise interpolation_syntax_error
      | String c rest' =>
          if Ascii.eqb c close_paren then
            match rest' with
            | String "s"%char after =>
                if is_empty var then Raise interpolation_syntax_error
                else
                  match map !! lower var with
                  | None => Raise interpolation_missing_option_error
                  | Some v =>
                      bind (if contains percent v then deeper v else Ok v) (fun head =>
                      bind (interpolate_scan deeper map None after) (fun tail =>
                      Ok (head ++ tail)))
                  end
            | _ => Raise interpolation_syntax_error
            end
          else interpolate_scan deeper map (Some (var ++ String c EmptyString)) rest'
      end
  end.

(** [BasicInterpolation._interpolate_some], [levels] being the calls
    still allowed below this one: the depth starts at 1 and a call at a depth
    above [MAX_INTERPOLATION_DEPTH] raises. *)
Fixpoint interpolate_some (levels : nat) (map : gmap string string)
    (rest : string) : result string :=
  match levels with
  | 0%nat => Raise interpolation_depth_error
  | S levels' => interpolate_scan (interpolate_some levels' map) map None rest
  end.

(** [BasicInterpolation.before_get]: what a [get] that is not raw makes of
    the value of an option, [map] holding the options of the section with
    those of the DEFAULT section behind them. *)
Definition before_get (map : gmap string string) (value : string) : result string :=
  interpolate_some max_interpolation_depth map value.

(** [config[key]] on a section: the value of the option, interpolated. *)
Definition getitem (config : gmap string string) (key : string) : result string :=
  match config !! key with
  | Some value => before_get config value
  | None => Raise (KeyError key)
  end.

(** [arg or config[key]]: the right operand is evaluated only when the
    left one is [None] or empty. *)
Definition arg_or (arg : option string) (config : gmap string string)
    (key : string) : result string :=
  match arg with
  | Some v => if truthy v then Ok v else getitem config key
  | None => getitem config key
  end.

(** The ten variables [main] sets in its step 2. *)
Record Settings : Type := {
  client_id : string;
  client_secret : string;
  organization_id : string;
  lookup_filename : string;
  target_worker_group : string;
  ad_server : string;
  ad_user : string;
  ad_password : string;
  ad_domain : string;
  ad_search_domain : string
}.

(** Step 2 of [main]. *)
Definition override (args : Args) (config : gmap string string) : result Settings :=
  bind (arg_or (args_client_id args) config "client_id") (fun client_id =>
  bind (arg_or (args_client_secret args) config "client_secret") (fun client_secret =>
  bind (arg_or (args_organization_id args) config "organization_id") (fun organization_id =>
  bind (arg_or (args_lookup_filename args) config "lookup_filename") (fun lookup_filename =>
  bind (arg_or (args_target_group args) config "target_worker_group") (fun target_worker_group =>
  bind (arg_or (args_ad_server args) config "ad_server") (fun ad_server =>
  bind (arg_or (args_ad_user args) config "ad_user") (fun ad_user =>
  bind (arg_or (args_ad_password args) config "ad_password") (fun ad_password =>
  bind (arg_or (args_ad_domain args) config "ad_domain") (fun ad_domain =>
  bind (arg_or (args_ad_search_domain args) config "ad_search_domain") (fun ad_search_domain =>
  Ok {| client_id := client_id;
        client_secret := client_secret;
        organization_id := organization_id;
        lookup_filename := lookup_filename;
        target_worker_group := target_worker_group;
        ad_server := ad_server;
        ad_user := ad_user;
        ad_password := ad_password;
        ad_domain := ad_domain;
        ad_search_domain := ad_search_domain |})))))))))).

(** The ten fields, to speak of each of them. *)
Inductive field : Type :=
  | ClientId | ClientSecret | OrganizationId | LookupFilename | TargetGroup
  | AdServer | AdUser | AdPassword | AdDomain | AdSearchDomain.

Definition field_arg (f : field) (args : Args) : option string :=
  match f with
  | ClientId => args_client_id args
  | ClientSecret => args_client_secret args
  | OrganizationId => args_organization_id args
  | LookupFilename => args_lookup_filename args
  | TargetGroup => args_target_group args
  | AdServer => args_ad_server args
  | AdUser => args_ad_user args
  | AdPassword => args_ad_password args
  | AdDomain => args_ad_domain args
  | AdSearchDomain => args_ad_search_domain args
  end.

Definition field_key (f : field) : string :=
  match f with
  | ClientId => "client_id"
  | ClientSecret => "client_secret"
  | OrganizationId => "organization_id"
  | LookupFilename => "lookup_filename"
  | TargetGroup => "target_worker_group"
  | AdServer => "ad_server"
  | AdUser => "ad_user"
  | AdPassword => "ad_password"
  | AdDomain => "ad_domain"
  | AdSearchDomain => "ad_search_domain"
  end.

Definition field_value (f : field) (s : Settings) : string :=
  match f with
  | ClientId => client_id s
  | ClientSecret => client_secret s
  | OrganizationId => organization_id s
  | LookupFilename => lookup_filename s
  | TargetGroup => target_worker_group s
  | AdServer => ad_server s
  | AdUser => ad_user s
  | AdPassword => ad_password s
  | AdDomain => ad_domain s
  | AdSearchDomain => ad_search_domain s
  end.

(** The default of a field, as the specification gives it. *)
Definition field_default (f : field) : string :=
  match f with
  | TargetGroup => "default"
  | _ => EmptyString
  end.

(** The value the configuration file gives a field: that of its [cribl]
    section. *)
Definition file_value (file : option ini) (f : field) : option string :=
  match file with
  | Some parsed =>
      match parsed !! "cribl" with
      | Some sect => sect !! field_key f
      | None => None
      end
  | None => None
  end.

(** The value of a field when no command-line value takes its place: that of
    the configuration file, else the default. *)
Definition config_value (file : option ini) (f : field) : string :=
  match file_value file f with
  | Some v => v
  | None => field_default f
  end.

(** The value of a field as the precedence rule gives it: the command-line
    value when there is one and it is not empty, else the configured one. *)
Definition expected_value (args : Args) (file : option ini) (f : field) : string :=
  match field_arg f args with
  | Some (String c v) => String c v
  | Some EmptyString | None => config_value file f
  end.

(** *** The directory query *)

Definition at_sign : ascii := "@"%char.
Definition backslash : ascii := "\"%char.
Definition slash : ascii := "/"%char.
Definition dot : ascii := "."%char.

Definition unpack_error : exn :=
  ValueError "not enough values to unpack (expected 2, got 1)".

(** [parse_ad_user(ad_user, ad_domain)] *)
Definition parse_ad_user (ad_user ad_domain : string) : result (string * string) :=
  if negb (truthy ad_user) then
    Raise (ValueError "AD user must be specified in config or arguments")
  else
    let ad_user := strip ad_user in
    if contains at_sign ad_user then
      match split1 at_sign ad_user with
      | [username; user_domain] =>
          if negb (truthy username) then
            Raise (ValueError ("Invalid AD user format: " ++ ad_user
                               ++ ". Username cannot be empty."))
          else Ok (username, or_else user_domain ad_domain)
      | _ => Raise unpack_error
      end
    else if contains backslash ad_user || contains slash ad_user then
      let separator := if contains backslash ad_user then backslash else slash in
      match split1 separator ad_user with
      | [user_domain; username] =>
          if negb (truthy username) then
            Raise (ValueError ("Invalid AD user format: " ++ ad_user
                               ++ ". Username cannot be empty."))
          else Ok (username, or_else user_domain ad_domain)
      | _ => Raise unpack_error
      end
    else if negb (truthy ad_domain) then
      Raise (ValueError ("AD domain must be specified when using plain username: "
                         ++ ad_user))
    else Ok (ad_user, ad_domain).

(** A user name in bare form: no [@], no backslash, no slash. *)
Definition is_bare (ad_user : string) : bool :=
  negb (contains at_sign ad_user) && negb (contains backslash ad_user)
  && negb (contains slash ad_user).

(** An entry of [conn.entries]: the [.value] of each of the five attributes
    asked for, [None] when the entry has no value for it. *)
Record entry : Type := {
  sAMAccountName : option string;
  DisplayName : option string;
  EmailAddress : option string;
  Department : option string;
  Title : option string
}.

(** [value or ''] *)
Definition value_or_empty (value : option string) : string :=
  match value with
  | Some v => or_else v EmptyString
  | None => EmptyString
  end.

Definition header : list string :=
  ["sAMAccountName"; "DisplayName"; "EmailAddress"; "Department"; "Title"].

Definition entry_row (e : entry) : list string :=
  [ value_or_empty (sAMAccountName e);
    value_or_empty (DisplayName e);
    value_or_empty (EmailAddress e);
    value_or_empty (Department e);
    value_or_empty (Title e) ].

(** The directory server and the file system, as [query_ad_users] meets
    them: the entries a bind and search come to (or the exception), and
    whether a path can be opened for writing. *)
Record directory : Type := {
  ldap_search :
    string (* server *) -> string (* user *) -> string (* password *) ->
    string (* search_base *) -> result (list entry);
  can_open : string -> bool
}.

(** The rows handed to [writer.writerow], in order, and the file they go to. *)
Record csv_file : Type := {
  csv_path : string;
  csv_rows : list (list string)
}.

(** How [query_ad_users] ends: it returns with the files it wrote and the
    line it printed, or it prints a line and exits with status 1. *)
Inductive query_outcome : Type :=
  | Exported (written : list csv_file) (printed : string)
  | QueryExit1 (printed : string).

Definition search_base_of (search_domain : string) : string :=
  let dc_components := split dot search_domain in
  join "," (map (fun component => "dc=" ++ component) dc_components).

(** The body of the [try] of [query_ad_users]. *)
Definition query_ad_users_try (dir : directory)
    (ad_server ad_user ad_password ad_domain ad_search_domain output_file : string)
    : result (list csv_file) :=
  bind (parse_ad_user ad_user ad_domain) (fun '(username, user_domain) =>
  let full_username :=
    if truthy user_domain then username ++ "@" ++ user_domain else username in
  let search_domain := or_else ad_search_domain ad_domain in
  if negb (truthy search_domain) then
    Raise (ValueError "AD domain or search domain must be specified in config or arguments")
  else
    let search_base := search_base_of search_domain in
    if negb (truthy ad_server) then
      Raise (ValueError "AD server must be specified in config or arguments")
    else if negb (truthy ad_password) then
      Raise (ValueError "AD password must be specified in config or arguments")
    else
      bind (ldap_search dir ad_server full_username ad_password search_base)
        (fun entries =>
      if negb (can_open dir output_file) then
        Raise (Exception ("[Errno 2] No such file or directory: " ++ output_file))
      else
        Ok [ {| csv_path := output_file;
                csv_rows := header :: map entry_row entries |} ])).

(** [query_ad_users(ad_server, ad_user, ad_password, ad_domain,
    ad_search_domain, output_file)] *)
Definition query_ad_users (dir : directory)
    (ad_server ad_user ad_password ad_domain ad_search_domain output_file : string)
    : query_outcome :=
  match query_ad_users_try dir ad_server ad_user ad_password ad_domain
          ad_search_domain output_file with
  | Ok written => Exported written ("AD user data exported to " ++ output_file)
  | Raise (ValueError msg) => QueryExit1 ("Configuration error: " ++ msg)
  | Raise e => QueryExit1 ("Error querying AD: " ++ exn_str e)
  end.

(** *** The text [csv.writer] writes *)

Definition quotechar : ascii := ascii_of_nat 34.
Definition cr : ascii := ascii_of_nat 13.
Definition lf : ascii := ascii_of_nat 10.

Definition needs_quotes (s : string) : bool :=
  contains ","%char s || contains quotechar s || contains cr s || contains lf s.

Fixpoint double_quotes (s : string) : string :=
  match s with
  | EmptyString => EmptyString
  | String c s' =>
      if Ascii.eqb c quotechar
      then String c (String c (double_quotes s'))
      else String c (double_quotes s')
  end.

Definition csv_field (s : string) : string :=
  if needs_quotes s
  then String quotechar (double_quotes s ++ String quotechar EmptyString)
  else s.

(** One [writer.writerow(row)] of two fields or more. *)
Definition csv_line (row : list string) : string :=
  join "," (map csv_field row) ++ String cr (String lf EmptyString).

Definition csv_text (rows : list (list string)) : string :=
  String.concat EmptyString (map csv_line rows).

(** *** The calls to the configuration API *)

(** [except requests.exceptions.RequestException: ... return fallback]
    around a body: other exceptions pass. *)
Definition except_request {A} (body : result A) (fallback : A) : result A :=
  match body with
  | Raise (RequestException _) => Ok fallback
  | other => other
  end.

(** [get_bearer_token(client_id, client_secret)], [post] being what the
    request to the token endpoint comes to. *)
Definition get_bearer_token (client_id client_secret : string)
    (post : http_outcome) : result (option json) :=
  if negb (truthy client_id) || negb (truthy client_secret) then
    Raise (ValueError "CRIBL_CLIENT_ID and CRIBL_CLIENT_SECRET must be provided via arguments or configuration file.")
  else
    except_request
      (bind (request_json post) (fun data =>
       match data with
       | JDict d =>
           match Json.dict_get "access_token" d with
           | Some token => Ok (Some token)
           | None => Raise (KeyError "access_token")
           end
       | _ => Raise (TypeError "indices must be integers")
       end))
      None.

(** [any(item.get("id") == lookup_filename for item in items)] *)
Fixpoint any_id_is (lookup_filename : string) (items : list json) : result bool :=
  match items with
  | [] => Ok false
  | JDict d :: rest =>
      if Json.eq_str (Json.dict_get "id" d) lookup_filename then Ok true
      else any_id_is lookup_filename rest
  | _ :: _ => Raise (AttributeError "object has no attribute 'get'")
  end.

(** [check_lookup_exists(token, organization_id, worker_group,
    lookup_filename)], [get] being what the request for the catalog comes
    to. *)
Definition check_lookup_exists (lookup_filename : string) (get : http_outcome)
    : result bool :=
  except_request
    (bind (request_json get) (fun data =>
     if negb (Json.truthy data) then Ok false
     else
       match data with
       | JDict d =>
           match Json.dict_get "items" d with
           | None => Ok false
           | Some items =>
               if negb (Json.truthy items) then Ok false
               else
                 match items with
                 | JList l => any_id_is lookup_filename l
                 | JDict _ | JStr _ =>
                     Raise (AttributeError "'str' object has no attribute 'get'")
                 | _ => Raise (TypeError "object is not iterable")
                 end
           end
       | JList l =>
           if existsb (Json.is_str "items") l
           then Raise (TypeError "list indices must be integers or slices, not str")
           else Ok false
       | JStr s =>
           if Json.is_substring "items" s
           then Raise (TypeError "string indices must be integers")
           else Ok false
       | _ => Raise (TypeError "argument is not iterable")
       end))
    false.

(** [lookup_filename.split('.')[0]] *)
Definition base_name (lookup_filename : string) : string :=
  match split dot lookup_filename with
  | base :: _ => base
  | [] => EmptyString
  end.

(** The [Content-type] header of the upload. *)
Definition content_type (lookup_filename : string) : string :=
  if endswith lookup_filename ".csv" then "text/csv" else "application/gzip".

(** [upload_lookup_file(token, organization_id, worker_group,
    lookup_filename)], [put] being what the upload request comes to; the
    file is there to be read ([query_ad_users] has just written it). *)
Definition upload_lookup_file (lookup_filename : string) (put : http_outcome)
    : result (option string) :=
  except_request
    (bind (request_json put) (fun response_data =>
     match response_data with
     | JDict d =>
         match Json.dict_get "filename" d with
         | None => Ok None
         | Some temp_filename =>
             if negb (Json.truthy temp_filename) then Ok None
             else
               match temp_filename with
               | JStr t =>
                   if negb (startswith t (base_name lookup_filename)) then Ok None
                   else Ok (Some t)
               | _ => Raise (AttributeError "object has no attribute 'startswith'")
               end
         end
     | _ => Raise (AttributeError "object has no attribute 'get'")
     end))
    None.

(** [create_lookup] and [update_lookup], [deploy_changes]: the request,
    [raise_for_status], and [True]; [False] on a request exception. *)
Definition request_succeeds (o : http_outcome) : result bool :=
  except_request (bind (request_json o) (fun _ => Ok true)) false.

Definition create_lookup (post : http_outcome) : result bool := request_succeeds post.
Definition update_lookup (patch : http_outcome) : result bool := request_succeeds patch.
Definition deploy_changes (patch : http_outcome) : result bool := request_succeeds patch.

(** [commit_changes(token, organization_id, worker_group, lookup_filename)]:
    [response_data["items"][0].get("commit")], [None] when it is falsy. *)
Definition commit_changes (post : http_outcome) : result (option json) :=
  except_request
    (bind (request_json post) (fun response_data =>
     match response_data with
     | JDict d =>
         match Json.dict_get "items" d with
         | None => Raise (KeyError "items")
         | Some (JList (JDict item :: _)) =>
             match Json.dict_get "commit" item with
             | Some commit_id =>
                 if Json.truthy commit_id then Ok (Some commit_id) else Ok None
             | None => Ok None
             end
         | Some (JList []) => Raise (IndexError "list index out of range")
         | Some (JList (_ :: _)) => Raise (AttributeError "object has no attribute 'get'")
         | Some (JDict _) => Raise (KeyError "0")
         | Some (JStr EmptyString) => Raise (IndexError "string index out of range")
         | Some (JStr _) => Raise (AttributeError "'str' object has no attribute 'get'")
         | Some _ => Raise (TypeError "object is not subscriptable")
         end
     | _ => Raise (TypeError "indices must be integers")
     end))
    None.

(** A request that raises: the library's own exception, or an error status
    turned into one by [raise_for_status]. *)
Definition request_failed (o : http_outcome) : bool :=
  match o with
  | HttpFailed _ => true
  | HttpResponse status_code _ => ((400 <=? status_code) && (status_code <? 600))%Z
  end.

(** An item of the catalog whose [id] is the file name. *)
Definition item_has_id (lookup_filename : string) (item : json) : bool :=
  match item with
  | JDict d => Json.eq_str (Json.dict_get "id" d) lookup_filename
  | _ => false
  end.

Definition is_dict (v : json) : bool :=
  match v with JDict _ => true | _ => false end.

(** A successful response whose catalog, the list under [items], holds
    objects only and none with the file name as its [id]. *)
Definition catalog_without (lookup_filename : string) (o : http_outcome) : bool :=
  match o with
  | HttpResponse _ (JDict d) =>
      negb (request_failed o) &&
      match Json.dict_get "items" d with
      | Some (JList l) =>
          forallb (fun item => is_dict item && negb (item_has_id lookup_filename item)) l
      | _ => false
      end
  | _ => false
  end.

(** *** [main] *)

(** What the run meets outside the process. *)
Record world : Type := {
  config_file : option ini;
  dir : directory;
  token_post : http_outcome;
  upload_put : http_outcome;
  catalog_get : http_outcome;
  update_patch : http_outcome;
  create_post : http_outcome;
  commit_post : http_outcome;
  deploy_patch : http_outcome
}.

(** The functions [main] calls, in the order it calls them. *)
Inductive call : Type :=
  | CallQueryAdUsers
  | CallGetBearerToken
  | CallUploadLookupFile
  | CallCheckLookupExists
  | CallUpdateLookup
  | CallCreateLookup
  | CallCommitChanges
  | CallDeployChanges.

(** A run of [main]: the calls made, the files written, the exit status. *)
Record run : Type := {
  calls : list call;
  files : list csv_file;
  status : Z
}.

Definition exit1 (made : list call) (written : list csv_file) : run :=
  {| calls := made; files := written; status := 1 |}.

(** [token[:10]]: defined on a [str] and on a [list]. *)
Definition sliceable (token : json) : bool :=
  match token with
  | JStr _ | JList _ => true
  | _ => false
  end.

(** Steps 7 and 8 of [main]. *)
Definition main_commit_deploy (w : world) (made : list call)
    (written : list csv_file) : run :=
  let made := (made ++ [CallCommitChanges])%list in
  match commit_changes (commit_post w) with
  | Ok (Some _) =>
      let made := (made ++ [CallDeployChanges])%list in
      match deploy_changes (deploy_patch w) with
      | Ok true => {| calls := made; files := written; status := 0 |}
      | _ => exit1 made written
      end
  | _ => exit1 made written
  end.

(** Step 6 of [main]. *)
Definition main_create_or_update (w : world) (s : Settings) (made : list call)
    (written : list csv_file) : run :=
  let made := (made ++ [CallCheckLookupExists])%list in
  match check_lookup_exists (lookup_filename s) (catalog_get w) with
  | Ok true =>
      let made := (made ++ [CallUpdateLookup])%list in
      match update_lookup (update_patch w) with
      | Ok true => main_commit_deploy w made written
      | _ => exit1 made written
      end
  | Ok false =>
      let made := (made ++ [CallCreateLookup])%list in
      match create_lookup (create_post w) with
      | Ok true => main_commit_deploy w made written
      | _ => exit1 made written
      end
  | Raise _ => exit1 made written
  end.

(** The statements of [main()] after [args = parse_arguments()]. *)
Definition main_body (args : Args) (w : world) : run :=
  let config := load_config (config_file w) in
  match override args config with
  | Raise _ => exit1 [] []
  | Ok s =>
      let made := [CallQueryAdUsers] in
      match query_ad_users (dir w) (ad_server s) (ad_user s) (ad_password s)
              (ad_domain s) (ad_search_domain s) (lookup_filename s) with
      | QueryExit1 _ => exit1 made []
      | Exported written _ =>
          let made := (made ++ [CallGetBearerToken])%list in
          match get_bearer_token (client_id s) (client_secret s) (token_post w) with
          | Ok (Some token) =>
              if negb (Json.truthy token) || negb (sliceable token) then
                exit1 made written
              else
                let made := (made ++ [CallUploadLookupFile])%list in
                match upload_lookup_file (lookup_filename s) (upload_put w) with
                | Ok (Some _) => main_create_or_update w s made written
                | _ => exit1 made written
                end
          | _ => exit1 made written
          end
      end
  end.

(** How [parse_arguments()] ends: with the namespace, or with the exit of
    argparse itself, of status 0 after the help text of [-h] or [--help], of
    status 2 on a command line it refuses.  That exit is a [SystemExit],
    which the [except Exception] of [main] does not catch. *)
Inductive command_line : Type :=
  | Parsed (args : Args)
  | HelpRequested
  | Refused.

(** [main()]: [parse_arguments()] first, and unless argparse exits there,
    the statements after it. *)
Definition main (cmdline : command_line) (w : world) : run :=
  match cmdline with
  | Parsed args => main_body args w
  | HelpRequested => {| calls := []; files := []; status := 0 |}
  | Refused => {| calls := []; files := []; status := 2 |}
  end.

(** The calls of a run that goes through all its steps, [write] being the
    one of [update_lookup] and [create_lookup] that step 6 makes. *)
Definition pipeline (write : call) : list call :=
  [ CallQueryAdUsers; CallGetBearerToken; CallUploadLookupFile;
    CallCheckLookupExists; write; CallCommitChanges; CallDeployChanges ].

End ActiveDirectory.

(** ** KnowledgeArticles/PowerBI_CriblSearch/PowerBI_CriblSearch.py *)

Module PowerBI.
Import PyStr.

(** *** The job status poll loop *)

Definition max_attempts : nat := 60.

(** What the script does to the outside, in order: a status request (with
    the value of [attempt]), a [time.sleep], the request for the results. *)
Inductive event : Type :=
  | GetStatus (attempt : nat)
  | Sleep (seconds : Z)
  | GetResults.

(** How the [for] loop is left. *)
Inductive loop_exit : Type :=
  | Break
  | Raised (e : exn)
  | Exhausted.

(** [status_response.json()["items"][0]["status"]] on the decoded body. *)
Definition job_status_of (body : json) : result json :=
  bind (Json.subscript "items" body) (fun items =>
  bind (Json.first_item items) (fun item =>
  Json.subscript "status" item)).

(** The first two statements of the loop body at an attempt.
    [response_of attempt] is what [requests.get(...)] and [.json()] come to
    there: the decoded body, or the exception one of them raises.  Nothing
    in the script catches it, no more than the one of the subscripts. *)
Definition job_status_at (response_of : nat -> result json) (attempt : nat)
    : result json :=
  bind (response_of attempt) job_status_of.

(** [job_status in ["done", "completed"]] *)
Definition is_done (job_status : json) : bool :=
  Json.is_str "done" job_status || Json.is_str "completed" job_status.

(** [job_status == "failed"] *)
Definition is_failed (job_status : json) : bool :=
  Json.is_str "failed" job_status.

(** [for attempt in attempts: ...] *)
Fixpoint poll (response_of : nat -> result json) (attempts : list nat)
    : list event * loop_exit :=
  match attempts with
  | [] => ([], Exhausted)
  | attempt :: rest =>
      match job_status_at response_of attempt with
      | Raise e => ([GetStatus attempt], Raised e)
      | Ok job_status =>
          if is_done job_status then ([GetStatus attempt], Break)
          else if is_failed job_status then
            ([GetStatus attempt], Raised (Exception "Search job failed"))
          else
            let '(trace, how) := poll response_of rest in
            (GetStatus attempt :: Sleep 2 :: trace, how)
      end
  end.

(** [for attempt in range(max_attempts): ...] *)
Definition poll_loop (response_of : nat -> result json) : list event * loop_exit :=
  poll response_of (seq 0 max_attempts).


(** A status request that gave a status with the property [p]. *)
Definition status_is (p : json -> bool) (o : result json) : bool :=
  match o with
  | Ok job_status => p job_status
  | Raise _ => false
  end.

Definition is_status_check (ev : event) : bool :=
  match ev with GetStatus _ => true | _ => false end.

(** A status that ends the polling. *)
Definition is_terminal (job_status : json) : bool :=
  is_done job_status || is_failed job_status.

(** The number of status requests of a trace. *)
Definition checks (trace : list event) : nat :=
  length (List.filter is_status_check trace).

(** [k] rounds of a status request and the wait after it. *)
Definition rounds (k : nat) : list event :=
  flat_map (fun attempt => [GetStatus attempt; Sleep 2]) (seq 0 k).

(** The seconds a trace spends in [time.sleep]. *)
Definition total_sleep (trace : list event) : Z :=
  fold_right (fun ev seconds =>
                match ev with
                | Sleep n => (n + seconds)%Z
                | _ => seconds
                end)
             0%Z trace.


(** *** NDJSON parsing *)

Section Ndjson.

(** [json.loads]: the value of a JSON text, or the exception on a text
    that is no JSON. *)
Variable json_loads : string -> result json.

Definition newline : ascii := ascii_of_nat 10.

(** The body of the loop: [results] after the line. *)
Definition parse_line (results : list json) (line : string) : result (list json) :=
  if truthy (strip line) then
    bind (json_loads line) (fun parsed =>
    if Json.truthy parsed then Ok (results ++ [parsed])%list else Ok results)
  else Ok results.

Fixpoint parse_lines (results : list json) (lines : list string) : result (list json) :=
  match lines with
  | [] => Ok results
  | line :: rest => bind (parse_line results line) (fun results => parse_lines results rest)
  end.

(** [results = []; for line in text.strip().split('\n'): ...] *)
Definition parse_ndjson (text : string) : result (list json) :=
  parse_lines [] (split newline (strip text)).

(** What the specification says the list holds: of each line that is not
    blank the object it parses to, unless it is the empty object. *)
Definition nonempty_objects (lines : list string) : list json :=
  flat_map (fun line =>
              if truthy (strip line) then
                match json_loads line with
                | Ok (JDict (item :: d)) => [JDict (item :: d)]
                | _ => []
                end
              else [])
           lines.

(** What a line adds to [results] when every line parses: its value, unless
    the line is blank or the value is falsy. *)
Definition kept_values (lines : list string) : list json :=
  flat_map (fun line =>
              if truthy (strip line) then
                match json_loads line with
                | Ok parsed => if Json.truthy parsed then [parsed] else []
                | Raise _ => []
                end
              else [])
           lines.

(** A line as the specification sorts them: blank, or a JSON object. *)
Definition blank_or_object (line : string) : Prop :=
  truthy (strip line) = false \/ exists d, json_loads line = Ok (JDict d).

End Ndjson.

(** *** The table *)

(** A cell of a [DataFrame] built from records: the value of the record at
    the column, [None] (NaN) where the record has no such key. *)
Definition cell : Type := option json.

(** [pandas.isna] on a cell. *)
Definition isna (c : cell) : bool :=
  match c with
  | None => true
  | Some JNull => true
  | Some (JFloat S754_nan) => true
  | Some _ => false
  end.

(** A frame: its column labels, and its rows with their index labels, each
    row holding one cell per column. *)
Record DataFrame : Type := {
  columns : list string;
  rows : list (nat * list (string * cell))
}.

Definition columns_to_remove : list string :=
  ["isFinished"; "offset"; "persistedEventCount"; "totalEventCount"; "job"].

Definition mem (x : string) (l : list string) : bool := existsb (String.eqb x) l.

(** The keys of the records, each once, in the order they first appear. *)
Fixpoint union_keys (seen : list string) (keys : list string) : list string :=
  match keys with
  | [] => seen
  | k :: rest => union_keys (if mem k seen then seen else seen ++ [k])%list rest
  end.

Fixpoint number_from {A} (i : nat) (l : list A) : list (nat * A) :=
  match l with
  | [] => []
  | x :: rest => (i, x) :: number_from (S i) rest
  end.

(** What [pd.DataFrame] makes of the values of a column.  pandas infers one
    dtype per column from the values it finds there and converts them to it:
    integers beside a missing cell or a float become floats, where one above
    2^53 is rounded, and a null among numbers becomes NaN.  Which dtype a
    column gets is the business of pandas; what the script relies on is kept:
    the conversion of a cell depends on the values of its column and on its
    own, and a cell is missing after it exactly when it was missing before. *)
Record dtype_conversion : Type := {
  as_dtype : list cell -> cell -> cell;
  as_dtype_isna : forall column v, isna (as_dtype column v) = isna v
}.

(** [pd.DataFrame(results)] for a list of records: one column per key, one
    row per record, the cell of a record under a key being the value it has
    there, missing when it has none, converted to the dtype of the column. *)
Definition from_records (conv : dtype_conversion)
    (results : list (list (string * json))) : DataFrame :=
  let cols := union_keys [] (flat_map (map fst) results) in
  let column := fun c => map (Json.dict_get c) results in
  {| columns := cols;
     rows := number_from 0
               (map (fun record =>
                       map (fun c => (c, as_dtype conv (column c) (Json.dict_get c record)))
                           cols)
                    results) |}.

(** [df.drop(columns=labels, errors='ignore')] *)
Definition drop_columns (labels : list string) (df : DataFrame) : DataFrame :=
  {| columns := List.filter (fun c => negb (mem c labels)) (columns df);
     rows := map (fun '(i, r) => (i, List.filter (fun '(c, _) => negb (mem c labels)) r))
                 (rows df) |}.

(** [df.dropna(how='all')] *)
Definition dropna_all (df : DataFrame) : DataFrame :=
  {| columns := columns df;
     rows := List.filter (fun '(_, r) => existsb (fun '(_, v) => negb (isna v)) r)
                         (rows df) |}.

(** A row all of whose cells are missing. *)
Definition all_missing (r : list (string * cell)) : Prop :=
  forall c v, In (c, v) r -> isna v = true.

(** A row with a value in some cell. *)
Definition some_value (r : list (string * cell)) : Prop :=
  exists c v, In (c, v) r /\ isna v = false.

(** The records of [results], when each of them is a [dict]. *)
Fixpoint as_records (results : list json) : option (list (list (string * json))) :=
  match results with
  | [] => Some []
  | JDict d :: rest =>
      match as_records rest with
      | Some ds => Some (d :: ds)
      | None => None
      end
  | _ :: _ => None
  end.

(** The three table statements of the script. *)
Definition build_table (conv : dtype_conversion)
    (results : list (list (string * json))) : DataFrame :=
  dropna_all (drop_columns columns_to_remove (from_records conv results)).

(** A cell that is empty or missing, in the widest reading of the words of
    the specification: missing, or holding the empty string. *)
Definition empty_or_missing (v : cell) : bool :=
  isna v || match v with Some (JStr EmptyString) => true | _ => false end.

(** *** The script, from the poll loop on *)

(** The events of a run and what [results] holds at the end of the parsing
    loop, or the exception that ended the run.  [response_of] gives what the
    status request of each attempt comes to; [results_response] is what the
    request for the results comes to: the [.text] of the response, or the
    exception [requests.get] raises, which nothing catches either. *)
Definition run_from_poll (json_loads : string -> result json)
    (response_of : nat -> result json) (results_response : result string)
    : list event * result (list json) :=
  let '(trace, how) := poll_loop response_of in
  match how with
  | Raised e => (trace, Raise e)
  | Break | Exhausted =>
      ((trace ++ [GetResults])%list, bind results_response (parse_ndjson json_loads))
  end.

End PowerBI.

(** ** A reader for a fragment of JSON

    An instance of [json.loads] to run the development on concrete texts:
    objects, arrays, strings without escapes, integers, [true], [false] and
    [null], with blanks between tokens. *)

Module MiniJson.

Definition quote : ascii := ascii_of_nat 34.

Definition is_blank (c : ascii) : bool :=
  match nat_of_ascii c with
  | 9 | 10 | 13 | 32 => true
  | _ => false
  end.

Fixpoint skip_blanks (s : string) : string :=
  match s with
  | String c s' => if is_blank c then skip_blanks s' else s
  | EmptyString => EmptyString
  end.

Definition digit (c : ascii) : option Z :=
  let n := nat_of_ascii c in
  if ((48 <=? n) && (n <=? 57))%nat then Some (Z.of_nat (n - 48)) else None.

Fixpoint read_digits (acc : Z) (s : string) : Z * string :=
  match s with
  | String c s' =>
      match digit c with
      | Some d => read_digits (10 * acc + d)%Z s'
      | None => (acc, s)
      end
  | EmptyString => (acc, s)
  end.

Definition starts_with_digit (s : string) : bool :=
  match s with
  | String c _ => match digit c with Some _ => true | None => false end
  | EmptyString => false
  end.

(** The characters up to the closing quote, and the text after it. *)
Fixpoint read_string (s : string) : option (string * string) :=
  match s with
  | EmptyString => None
  | String c s' =>
      if Ascii.eqb c quote then Some (EmptyString, s')
      else if Ascii.eqb c "\"%char then None
      else match read_string s' with
           | Some (t, rest) => Some (String c t, rest)
           | None => None
           end
  end.

Definition drop_prefix (p s : string) : option string :=
  if String.prefix p s
  then Some (String.substring (String.length p) (String.length s - String.length p) s)
  else None.

(** [d[k] = v] on the items of a [dict]. *)
Fixpoint dict_set (k : string) (v : json) (d : list (string * json))
    : list (string * json) :=
  match d with
  | [] => [(k, v)]
  | (k', v') :: d' =>
      if String.eqb k' k then (k', v) :: d' else (k', v') :: dict_set k v d'
  end.

Fixpoint read_value (fuel : nat) (s : string) {struct fuel} : option (json * string) :=
  match fuel with
  | O => None
  | S fuel =>
      match skip_blanks s with
      | String "["%char s' =>
          match skip_blanks s' with
          | String "]"%char rest => Some (JList [], rest)
          | _ => match read_elements fuel s' with
                 | Some (l, rest) => Some (JList l, rest)
                 | None => None
                 end
          end
      | String "{"%char s' =>
          match skip_blanks s' with
          | String "}"%char rest => Some (JDict [], rest)
          | _ => match read_members fuel [] s' with
                 | Some (d, rest) => Some (JDict d, rest)
                 | None => None
                 end
          end
      | String "-"%char s' =>
          if starts_with_digit s'
          then let '(n, rest) := read_digits 0 s' in Some (JInt (- n), rest)
          else None
      | String c s' as t =>
          if Ascii.eqb c quote then
            match read_string s' with
            | Some (str, rest) => Some (JStr str, rest)
            | None => None
            end
          else if starts_with_digit t then
            let '(n, rest) := read_digits 0 t in Some (JInt n, rest)
          else
            match drop_prefix "null" t, drop_prefix "true" t, drop_prefix "false" t with
            | Some rest, _, _ => Some (JNull, rest)
            | _, Some rest, _ => Some (JBool true, rest)
            | _, _, Some rest => Some (JBool false, rest)
            | _, _, _ => None
            end
      | EmptyString => None
      end
  end

with read_elements (fuel : nat) (s : string) {struct fuel} : option (list json * string) :=
  match fuel with
  | O => None
  | S fuel =>
      match read_value fuel s with
      | Some (v, rest) =>
          match skip_blanks rest with
          | String "]"%char rest' => Some ([v], rest')
          | String ","%char rest' =>
              match read_elements fuel rest' with
              | Some (l, rest'') => Some (v :: l, rest'')
              | None => None
              end
          | _ => None
          end
      | None => None
      end
  end

with read_members (fuel : nat) (d : list (string * json)) (s : string) {struct fuel}
    : option (list (string * json) * string) :=
  match fuel with
  | O => None
  | S fuel =>
      match skip_blanks s with
      | String c s' =>
          if Ascii.eqb c quote then
            match read_string s' with
            | Some (k, rest) =>
                match skip_blanks rest with
                | String ":"%char rest' =>
                    match read_value fuel rest' with
                    | Some (v, rest'') =>
                        let d := dict_set k v d in
                        match skip_blanks rest'' with
                        | String "}"%char after => Some (d, after)
                        | String ","%char after => read_members fuel d after
                        | _ => None
                        end
                    | None => None
                    end
                | _ => None
                end
            | None => None
            end
          else None
      | EmptyString => None
      end
  end.

Definition json_loads (s : string) : result json :=
  match read_value (S (String.length s)) s with
  | Some (v, rest) =>
      match skip_blanks rest with
      | EmptyString => Ok v
      | String _ _ => Raise (ValueError "Extra data")
      end
  | None => Raise (ValueError "Expecting value")
  end.

(** Texts with a quote in them, built from the character. *)
Definition q (s : string) : string :=
  String quote (s ++ String quote EmptyString).

End MiniJson.

(** ** Concrete inputs

    Responses, entries and runs on which the properties below are exercised. *)

Module Sample.
Import ActiveDirectory.

Definition timeout : http_outcome := HttpFailed "timed out".

Definition server_error : http_outcome := HttpResponse 503 JNull.

(** A catalog that lists one lookup, [other.csv]. *)
Definition catalog_other : http_outcome :=
  HttpResponse 200
    (JDict [("items", JList [JDict [("id", JStr "other.csv"); ("size", JInt 12)]]);
            ("count", JInt 1)]).

(** A catalog that lists [users.csv]. *)
Definition catalog_users : http_outcome :=
  HttpResponse 200
    (JDict [("items", JList [JDict [("id", JStr "other.csv")];
                             JDict [("id", JStr "users.csv")]])]).

(** Upload responses. *)
Definition uploaded : http_outcome :=
  HttpResponse 200 (JDict [("filename", JStr "users.abc123.csv")]).

Definition uploaded_no_filename : http_outcome :=
  HttpResponse 200 (JDict [("version", JStr "abc123")]).

Definition uploaded_other_prefix : http_outcome :=
  HttpResponse 200 (JDict [("filename", JStr "tmp.abc123.csv")]).

Definition ok_empty : http_outcome := HttpResponse 200 (JDict []).

Definition token_ok : http_outcome :=
  HttpResponse 200 (JDict [("access_token", JStr "eyJhbGciOi")]).

Definition commit_ok : http_outcome :=
  HttpResponse 200 (JDict [("items", JList [JDict [("commit", JStr "4f2a9c1")]])]).

(** Two directory entries, the second with three attributes missing. *)
Definition alice : entry :=
  {| sAMAccountName := Some "alice";
     DisplayName := Some "Alice Liddell";
     EmailAddress := Some "alice@x.com";
     Department := Some "R&D";
     Title := Some "Engineer, senior" |}.

Definition bob : entry :=
  {| sAMAccountName := Some "bob";
     DisplayName := None;
     EmailAddress := Some "bob@x.com";
     Department := None;
     Title := None |}.

(** A directory that answers every search with the given entries, and a file
    system where every path but the empty one can be opened. *)
Definition directory_with (entries : list entry) : directory :=
  {| ldap_search := fun _ _ _ _ => Ok entries;
     can_open := fun path => PyStr.truthy path |}.

Definition no_args : Args :=
  {| args_client_id := None;
     args_client_secret := None;
     args_organization_id := None;
     args_lookup_filename := None;
     args_ad_server := None;
     args_ad_user := None;
     args_ad_password := None;
     args_ad_domain := None;
     args_ad_search_domain := None;
     args_target_group := None |}.

(** Every flag given, none of them empty. *)
Definition all_args : Args :=
  {| args_client_id := Some "id-2";
     args_client_secret := Some "s3cret-2";
     args_organization_id := Some "org-2";
     args_lookup_filename := Some "staff.csv";
     args_ad_server := Some "ldap://dc2";
     args_ad_user := Some "CORP\ann";
     args_ad_password := Some "pw-2";
     args_ad_domain := Some "corp.example";
     args_ad_search_domain := Some "child.corp.example";
     args_target_group := Some "prod" |}.

(** A configuration file with everything the run needs. *)
Definition cribl_section : gmap string string :=
  list_to_map
    [ ("client_id", "id-1");
      ("client_secret", "s3cret");
      ("organization_id", "org-1");
      ("lookup_filename", "users.csv");
      ("ad_server", "ldap://dc1");
      ("ad_user", "joe@x.com");
      ("ad_password", "pw");
      ("ad_domain", "x.com") ].

Definition config_ini : gmap string (gmap string string) :=
  {[ "cribl" := cribl_section ]}.

(** A run where every request succeeds, but for the upload and the catalog
    request, which are given. *)
Definition world_with (entries : list entry) (upload catalog : http_outcome) : world :=
  {| config_file := Some config_ini;
     dir := directory_with entries;
     token_post := token_ok;
     upload_put := upload;
     catalog_get := catalog;
     update_patch := ok_empty;
     create_post := ok_empty;
     commit_post := commit_ok;
     deploy_patch := ok_empty |}.

(** A run with no configuration file, a run whose update request is
    answered with an error status, a run whose token is a number, and a run
    whose token request times out. *)
Definition world_no_file : world :=
  {| config_file := None;
     dir := directory_with [];
     token_post := token_ok;
     upload_put := uploaded;
     catalog_get := catalog_other;
     update_patch := ok_empty;
     create_post := ok_empty;
     commit_post := commit_ok;
     deploy_patch := ok_empty |}.

Definition world_update_fails : world :=
  {| config_file := Some config_ini;
     dir := directory_with [alice];
     token_post := token_ok;
     upload_put := uploaded;
     catalog_get := catalog_users;
     update_patch := server_error;
     create_post := ok_empty;
     commit_post := commit_ok;
     deploy_patch := ok_empty |}.

Definition world_token_number : world :=
  {| config_file := Some config_ini;
     dir := directory_with [];
     token_post := HttpResponse 200 (JDict [("access_token", JInt 12345)]);
     upload_put := uploaded;
     catalog_get := catalog_other;
     update_patch := ok_empty;
     create_post := ok_empty;
     commit_post := commit_ok;
     deploy_patch := ok_empty |}.

Definition world_token_timeout : world :=
  {| config_file := Some config_ini;
     dir := directory_with [alice];
     token_post := timeout;
     upload_put := uploaded;
     catalog_get := catalog_other;
     update_patch := ok_empty;
     create_post := ok_empty;
     commit_post := commit_ok;
     deploy_patch := ok_empty |}.

(** The settings [config_ini] gives when no flag is given. *)
Definition settings_ini : Settings :=
  {| client_id := "id-1";
     client_secret := "s3cret";
     organization_id := "org-1";
     lookup_filename := "users.csv";
     target_worker_group := "default";
     ad_server := "ldap://dc1";
     ad_user := "joe@x.com";
     ad_password := "pw";
     ad_domain := "x.com";
     ad_search_domain := EmptyString |}.

(** Three records: the second has a removed column and a null, the third
    an empty string. *)
Definition mixed_records : list (list (string * json)) :=
  [ [("a", JInt 1)]; [("job", JInt 7); ("a", JNull)]; [("a", JStr EmptyString)] ].

(** A run where every request succeeds, on a given configuration file. *)
Definition world_with_file (parsed : gmap string (gmap string string)) : world :=
  {| config_file := Some parsed;
     dir := directory_with [alice];
     token_post := token_ok;
     upload_put := uploaded;
     catalog_get := catalog_other;
     update_patch := ok_empty;
     create_post := ok_empty;
     commit_post := commit_ok;
     deploy_patch := ok_empty |}.

(** The body of the response to a status request for a job in the given
    status. *)
Definition status_body (job_status : string) : json :=
  JDict [("items", JList [JDict [("id", JStr "job-1"); ("status", JStr job_status)]])].

(** Two conversions.  The first keeps every value: it is what pandas does
    on the columns of the examples below, whose values are all integers or
    hold a string.  The second is what it does with a column of integers and
    missing cells: the integers become floats, nulls become NaN. *)
Definition values_kept : PowerBI.dtype_conversion :=
  {| PowerBI.as_dtype := fun _ v => v;
     PowerBI.as_dtype_isna := fun _ _ => eq_refl |}.

(** [float(n)]: the nearest float, ties to even.  The rounding gives no
    NaN; the first branch is there to have that by construction. *)
Definition float_of_int (n : Z) : spec_float :=
  match binary_normalize 53 1024 n 0 false with
  | S754_nan => S754_infinity (n <? 0)%Z
  | f => f
  end.

Definition integer_or_missing (v : PowerBI.cell) : bool :=
  match v with
  | None | Some JNull | Some (JInt _) => true
  | Some _ => false
  end.

Definition to_float64 (column : list PowerBI.cell) (v : PowerBI.cell) : PowerBI.cell :=
  if forallb integer_or_missing column && existsb PowerBI.isna column then
    match v with
    | Some (JInt n) => Some (JFloat (float_of_int n))
    | Some JNull => None
    | _ => v
    end
  else v.

(** Results texts.  The first is the one of the specification: an object, a
    blank line, the empty object, an object. *)
Definition nl : string := String (ascii_of_nat 10) EmptyString.

Definition object_a (n : string) : string := "{" ++ MiniJson.q "a" ++ ":" ++ n ++ "}".

Definition results_text : string :=
  object_a "1" ++ nl ++ nl ++ "{}" ++ nl ++ object_a "2" ++ nl.

(** One falsy value per line, then an object and a number. *)
Definition falsy_text : string :=
  "0" ++ nl ++ "null" ++ nl ++ "false" ++ nl ++ MiniJson.q EmptyString ++ nl
  ++ "[]" ++ nl ++ "{}" ++ nl ++ object_a "1" ++ nl ++ "7".

End Sample.

(** * Properties *)

(** ** Python strings *)

Section PyStrFacts.
Import PyStr.

Lemma truthy_nonempty (s : string) : truthy s = true <-> s <> EmptyString.
Proof. destruct s; cbn; split; intros H; congruence. Qed.

Lemma append_nil (t : string) : EmptyString ++ t = t.
Proof. reflexivity. Qed.

Lemma append_cons (c : ascii) (s t : string) : String c s ++ t = String c (s ++ t).
Proof. reflexivity. Qed.

Lemma append_empty_r (s : string) : s ++ EmptyString = s.
Proof.
  induction s as [|c s IH]; [reflexivity|].
  now rewrite append_cons, IH.
Qed.

Lemma contains_append (c : ascii) (s t : string) :
  contains c (s ++ t) = contains c s || contains c t.
Proof.
  induction s as [|d s IH]; [reflexivity|].
  rewrite append_cons. cbn. destruct (Ascii.eqb d c); [reflexivity | exact IH].
Qed.

(** A string with the separator in it is cut in two. *)
Lemma cut_contains (c : ascii) (s : string) :
  contains c s = true -> exists a b, cut c s = (a, Some b).
Proof.
  induction s as [|d s IH]; cbn; [discriminate|].
  destruct (Ascii.eqb d c); [eauto|].
  intros H. destruct (IH H) as (a & b & ->). eauto.
Qed.

Lemma split1_contains (c : ascii) (s : string) :
  contains c s = true -> exists a b, split1 c s = [a; b].
Proof.
  intros H. destruct (cut_contains c s H) as (a & b & E).
  unfold split1. rewrite E. eauto.
Qed.

(** The cut is at the first separator. *)
Lemma cut_first (c : ascii) (a b : string) :
  contains c a = false -> cut c (a ++ String c b) = (a, Some b).
Proof.
  induction a as [|d a IH].
  - intros _. rewrite append_nil. cbn. now rewrite Ascii.eqb_refl.
  - rewrite append_cons. cbn. destruct (Ascii.eqb d c); [discriminate|].
    intros H. now rewrite (IH H).
Qed.

Lemma split1_first (c : ascii) (a b : string) :
  contains c a = false -> split1 c (a ++ String c b) = [a; b].
Proof. intros H. unfold split1. now rewrite cut_first. Qed.

Lemma strip_truthy (s : string) : truthy (strip s) = true -> truthy s = true.
Proof. destruct s; [discriminate | reflexivity]. Qed.

End PyStrFacts.

Section SplitJoin.
Import PyStr.

Lemma split_no_separator (c : ascii) (s : string) :
  contains c s = false -> split c s = [s].
Proof.
  induction s as [|d s IH]; [reflexivity|]. cbn.
  destruct (Ascii.eqb d c); [discriminate|].
  intros H. now rewrite (IH H).
Qed.

Lemma split_append_separator (c : ascii) (a rest : string) :
  contains c a = false ->
  split c (a ++ String c rest) = a :: split c rest.
Proof.
  induction a as [|d a IH].
  - intros _. rewrite append_nil. cbn. now rewrite Ascii.eqb_refl.
  - rewrite append_cons. cbn. destruct (Ascii.eqb d c); [discriminate|].
    intros H. now rewrite (IH H).
Qed.

(** Splitting undoes joining, for parts that do not hold the separator. *)
Lemma split_join (c : ascii) (parts : list string) :
  parts <> [] ->
  Forall (fun part => contains c part = false) parts ->
  split c (join (String c EmptyString) parts) = parts.
Proof.
  intros Hne H. induction H as [|part rest Hpart Hrest IH]; [congruence|].
  destruct rest as [|next rest].
  - cbn [join]. now apply split_no_separator.
  - cbn [join]. rewrite append_cons, append_nil.
    rewrite split_append_separator by exact Hpart.
    f_equal. apply IH. discriminate.
Qed.

Lemma all_space_lstrip (s : string) : all_space s = true -> lstrip s = EmptyString.
Proof.
  induction s as [|c s IH]; [reflexivity|]. cbn.
  destruct (isspace c); [exact IH | discriminate].
Qed.

Lemma all_space_strip (s : string) : all_space s = true -> strip s = EmptyString.
Proof. intros H. unfold strip. now rewrite (all_space_lstrip s H). Qed.

Lemma prefix_nil (s : string) : String.prefix EmptyString s = true.
Proof. destruct s; reflexivity. Qed.

Lemma prefix_append (p s : string) : String.prefix p (p ++ s) = true.
Proof.
  induction p as [|c p IH]; [rewrite append_nil; apply prefix_nil|].
  rewrite append_cons. cbn. destruct (ascii_dec c c); [exact IH | congruence].
Qed.

(** [t.startswith(p)] holds exactly when [t] is [p] followed by something. *)
Lemma startswith_iff (t p : string) :
  startswith t p = true <-> exists suffix, t = p ++ suffix.
Proof.
  unfold startswith. split.
  - revert t. induction p as [|c p IH]; intros t H.
    + exists t. reflexivity.
    + destruct t as [|d t]; [discriminate|]. cbn in H.
      destruct (ascii_dec c d) as [->|]; [|discriminate].
      destruct (IH t H) as (suffix & ->). exists suffix. reflexivity.
  - intros (suffix & ->). apply prefix_append.
Qed.

End SplitJoin.

(** ** The directory-to-lookup sync *)

Section ParseAdUser.
Import PyStr ActiveDirectory.

Lemma is_bare_inv (s : string) :
  is_bare s = true ->
  contains at_sign s = false /\ contains backslash s = false /\ contains slash s = false.
Proof.
  unfold is_bare. rewrite !andb_true_iff, !negb_true_iff. tauto.
Qed.

(** A bare user name with no domain given is a [ValueError]. *)
Lemma parse_ad_user_bare_no_domain (u : string) :
  is_bare (strip u) = true ->
  exists msg, parse_ad_user u EmptyString = Raise (ValueError msg).
Proof.
  intros (Hat & Hbs & Hsl)%is_bare_inv. unfold parse_ad_user.
  destruct (truthy u); cbn [negb]; [|eauto].
  rewrite Hat, Hbs, Hsl. cbn. eauto.
Qed.

(** [parse_ad_user] returns a pair or raises a [ValueError], nothing else;
    the unpacking of the split never fails. *)
Lemma parse_ad_user_total (u d : string) :
  (exists username domain, parse_ad_user u d = Ok (username, domain)) \/
  (exists msg, parse_ad_user u d = Raise (ValueError msg)).
Proof.
  unfold parse_ad_user, unpack_error.
  destruct (truthy u); cbn [negb]; [|eauto].
  destruct (contains at_sign (strip u)) eqn:Hat.
  { destruct (split1_contains _ _ Hat) as (a & b & ->).
    destruct (truthy a); cbn [negb]; eauto. }
  destruct (contains backslash (strip u)) eqn:Hbs; cbn [orb].
  { destruct (split1_contains _ _ Hbs) as (a & b & ->).
    destruct (truthy b); cbn [negb]; eauto. }
  destruct (contains slash (strip u)) eqn:Hsl.
  { destruct (split1_contains _ _ Hsl) as (a & b & ->).
    destruct (truthy b); cbn [negb]; eauto. }
  destruct (truthy d); cbn [negb]; eauto.
Qed.

(** A [ValueError] of [parse_ad_user] ends [query_ad_users] with the
    configuration error line and exit status 1. *)
Lemma query_ad_users_parse_error (dir : directory)
    (server u pw d sd out msg : string) :
  parse_ad_user u d = Raise (ValueError msg) ->
  query_ad_users dir server u pw d sd out = QueryExit1 ("Configuration error: " ++ msg).
Proof.
  intros H. unfold query_ad_users, query_ad_users_try. now rewrite H.
Qed.

(** C1. [parse_ad_user] is a total function whose only exception is the
    configuration error: the UPN input joe@x.com gives (joe, x.com), the
    NetBIOS input DOM\joe gives (joe, DOM), the bare input joe with the
    domain x.com gives (joe, x.com), and a bare input with no domain raises
    the [ValueError] that [query_ad_users] reports as a configuration error
    before it exits with status 1. *)
Theorem parse_ad_user_cases :
  (forall d, parse_ad_user "joe@x.com" d = Ok ("joe", "x.com")) /\
  (forall d, parse_ad_user "DOM\joe" d = Ok ("joe", "DOM")) /\
  parse_ad_user "joe" "x.com" = Ok ("joe", "x.com") /\
  parse_ad_user "joe" EmptyString
    = Raise (ValueError "AD domain must be specified when using plain username: joe") /\
  (forall u, is_bare (strip u) = true ->
     exists msg, parse_ad_user u EmptyString = Raise (ValueError msg) /\
       forall dir server pw sd out,
         query_ad_users dir server u pw EmptyString sd out
         = QueryExit1 ("Configuration error: " ++ msg)) /\
  (forall u d,
     (exists username domain, parse_ad_user u d = Ok (username, domain)) \/
     (exists msg, parse_ad_user u d = Raise (ValueError msg))).
Proof.
  repeat split; try reflexivity.
  - intros u Hu. destruct (parse_ad_user_bare_no_domain u Hu) as (msg & E).
    exists msg. split; [exact E|]. intros.
    now apply query_ad_users_parse_error.
  - apply parse_ad_user_total.
Qed.

Lemma parse_ad_user_upn_empty_domain (s u d : string) :
  u <> EmptyString -> contains at_sign u = false ->
  strip s = u ++ "@" ->
  parse_ad_user s d = Ok (u, d).
Proof.
  intros Hu Hat Hs. unfold parse_ad_user.
  assert (Ht : truthy s = true).
  { apply strip_truthy. rewrite Hs. destruct u; [congruence | reflexivity]. }
  rewrite Ht, Hs. cbn [negb].
  rewrite contains_append, Hat. cbn [orb contains Ascii.eqb at_sign].
  replace (contains at_sign "@") with true by reflexivity.
  change (u ++ "@") with (u ++ String at_sign EmptyString).
  rewrite split1_first by exact Hat.
  apply truthy_nonempty in Hu. rewrite Hu. reflexivity.
Qed.

Lemma parse_ad_user_netbios_empty_domain (sep : ascii) (s u d : string) :
  u <> EmptyString -> contains at_sign u = false ->
  (sep = backslash \/ sep = slash /\ contains backslash u = false) ->
  strip s = String sep u ->
  parse_ad_user s d = Ok (u, d).
Proof.
  intros Hu Hat Hsep Hs. unfold parse_ad_user.
  assert (Ht : truthy s = true) by (apply strip_truthy; now rewrite Hs).
  rewrite Ht, Hs. cbn [negb].
  apply truthy_nonempty in Hu.
  destruct Hsep as [-> | [-> Hbs]].
  - replace (contains at_sign (String backslash u)) with (contains at_sign u)
      by reflexivity.
    rewrite Hat.
    replace (contains backslash (String backslash u)) with true by reflexivity.
    cbn [orb].
    change (String backslash u) with (EmptyString ++ String backslash u).
    rewrite split1_first by reflexivity.
    rewrite Hu. reflexivity.
  - replace (contains at_sign (String slash u)) with (contains at_sign u)
      by reflexivity.
    rewrite Hat.
    replace (contains backslash (String slash u)) with (contains backslash u)
      by reflexivity.
    rewrite Hbs.
    replace (contains slash (String slash u)) with true by reflexivity.
    cbn [orb].
    change (String slash u) with (EmptyString ++ String slash u).
    rewrite split1_first by reflexivity.
    rewrite Hu. reflexivity.
Qed.

(** C10. An input whose domain part is empty, the user name [u] followed by
    [@] or preceded by a backslash (or by a slash, when [u] has no
    backslash), raises nothing: the result is [(u, ad_domain)], whatever
    [ad_domain] is, the empty string included. *)
Theorem parse_ad_user_empty_domain_part (s u ad_domain : string) :
  u <> EmptyString ->
  contains at_sign u = false ->
  (strip s = u ++ "@" -> parse_ad_user s ad_domain = Ok (u, ad_domain)) /\
  (strip s = String backslash u -> parse_ad_user s ad_domain = Ok (u, ad_domain)) /\
  (strip s = String slash u -> contains backslash u = false ->
   parse_ad_user s ad_domain = Ok (u, ad_domain)).
Proof.
  intros Hu Hat. repeat split.
  - now apply parse_ad_user_upn_empty_domain.
  - apply parse_ad_user_netbios_empty_domain; auto.
  - intros Hs Hbs. apply (parse_ad_user_netbios_empty_domain slash); auto.
Qed.

Lemma parse_ad_user_empty_domain_part_witness :
  parse_ad_user "joe@" EmptyString = Ok ("joe", EmptyString) /\
  parse_ad_user "\joe" EmptyString = Ok ("joe", EmptyString) /\
  parse_ad_user "joe@" "x.com" = Ok ("joe", "x.com") /\
  parse_ad_user "\joe" "x.com" = Ok ("joe", "x.com").
Proof.
  assert (Hne : "joe" <> EmptyString) by discriminate.
  assert (Hat : contains at_sign "joe" = false) by reflexivity.
  split; [|split; [|split]].
  - apply (proj1 (parse_ad_user_empty_domain_part "joe@" "joe" EmptyString Hne Hat)).
    reflexivity.
  - apply (proj1 (proj2 (parse_ad_user_empty_domain_part "\joe" "joe" EmptyString Hne Hat))).
    reflexivity.
  - apply (proj1 (parse_ad_user_empty_domain_part "joe@" "joe" "x.com" Hne Hat)).
    reflexivity.
  - apply (proj1 (proj2 (parse_ad_user_empty_domain_part "\joe" "joe" "x.com" Hne Hat))).
    reflexivity.
Defined.

End ParseAdUser.

Section Configuration.
Import PyStr ActiveDirectory.

Lemma cribl_defaults_lookup (f : field) :
  cribl_defaults !! field_key f = Some (field_default f).
Proof. destruct f; vm_compute; reflexivity. Qed.

Lemma read_into_lookup (config src : ini) (name : string) :
  read_into config src !! name
  = union_with (fun new old => Some (new ∪ old)) (src !! name) (config !! name).
Proof. unfold read_into. apply lookup_union_with. Qed.

Lemma defaults_cribl : read_into ∅ defaults !! "cribl" = Some cribl_defaults.
Proof.
  unfold read_into, defaults.
  now rewrite lookup_union_with, lookup_empty, lookup_singleton_eq.
Qed.

Lemma defaults_no_default_section : read_into ∅ defaults !! "DEFAULT" = None.
Proof.
  unfold read_into, defaults.
  rewrite lookup_union_with, lookup_empty.
  now rewrite lookup_singleton_ne by discriminate.
Qed.

(** Every one of the ten options is in the loaded section: the value of the
    file when it has one, the default otherwise. *)
Lemma load_config_lookup (file : option ini) (f : field) :
  load_config file !! field_key f = Some (config_value file f).
Proof.
  unfold load_config, section, config_value, file_value.
  destruct file as [parsed|].
  - rewrite !(read_into_lookup _ parsed).
    rewrite defaults_cribl, defaults_no_default_section.
    destruct (parsed !! "cribl") as [sect|]; cbn.
    + destruct (sect !! field_key f) as [v|] eqn:E.
      * apply lookup_union_Some_l. now apply lookup_union_Some_l.
      * apply lookup_union_Some_l. rewrite lookup_union_r by exact E.
        apply cribl_defaults_lookup.
    + apply lookup_union_Some_l. apply cribl_defaults_lookup.
  - rewrite defaults_cribl, defaults_no_default_section. cbn.
    apply lookup_union_Some_l. apply cribl_defaults_lookup.
Qed.

(** *** Interpolation *)

Lemma interpolate_scan_prefix (deeper : string -> result string)
    (map : gmap string string) (v rest : string) :
  contains percent v = false ->
  interpolate_scan deeper map None (v ++ rest)
  = bind (interpolate_scan deeper map None rest) (fun tail => Ok (v ++ tail)).
Proof.
  induction v as [|c v IH]; intros H.
  - rewrite append_nil. destruct (interpolate_scan deeper map None rest); reflexivity.
  - rewrite append_cons. cbn [contains] in H. cbn [interpolate_scan].
    destruct (Ascii.eqb c percent); [discriminate|].
    rewrite (IH H).
    destruct (interpolate_scan deeper map None rest); reflexivity.
Qed.

Lemma interpolate_some_prefix (levels : nat) (map : gmap string string)
    (v rest : string) :
  contains percent v = false ->
  interpolate_some (S levels) map (v ++ rest)
  = bind (interpolate_some (S levels) map rest) (fun tail => Ok (v ++ tail)).
Proof. intros H. cbn [interpolate_some]. now apply interpolate_scan_prefix. Qed.

(** A value with no percent sign is read as it is. *)
Lemma before_get_plain (map : gmap string string) (v : string) :
  contains percent v = false -> before_get map v = Ok v.
Proof.
  intros H. unfold before_get, max_interpolation_depth.
  rewrite <- (append_empty_r v) at 1.
  rewrite (interpolate_some_prefix _ map v EmptyString H). cbn.
  now rewrite append_empty_r.
Qed.






Lemma field_default_plain (f : field) : contains percent (field_default f) = false.
Proof. destruct f; reflexivity. Qed.

(** *** Step 2 of [main] *)

Lemma arg_or_field (args : Args) (file : option ini) (f : field) :
  arg_or (field_arg f args) (load_config file) (field_key f)
  = match field_arg f args with
    | Some (String c v) => Ok (String c v)
    | Some EmptyString | None => before_get (load_config file) (config_value file f)
    end.
Proof.
  unfold arg_or, getitem. rewrite load_config_lookup.
  destruct (field_arg f args) as [[|c v]|]; reflexivity.
Qed.


(** Step 2 depends on the configuration through the ten reads only. *)
Lemma override_ext (args : Args) (config config' : gmap string string) :
  (forall f, arg_or (field_arg f args) config (field_key f)
             = arg_or (field_arg f args) config' (field_key f)) ->
  override args config = override args config'.
Proof.
  intros H.
  pose proof (H ClientId) as H1. pose proof (H ClientSecret) as H2.
  pose proof (H OrganizationId) as H3. pose proof (H LookupFilename) as H4.
  pose proof (H TargetGroup) as H5. pose proof (H AdServer) as H6.
  pose proof (H AdUser) as H7. pose proof (H AdPassword) as H8.
  pose proof (H AdDomain) as H9. pose proof (H AdSearchDomain) as H10.
  cbn [field_arg field_key] in H1, H2, H3, H4, H5, H6, H7, H8, H9, H10.
  unfold override. now rewrite H1, H2, H3, H4, H5, H6, H7, H8, H9, H10.
Qed.




(** The fields one by one: what [expected_value] comes to in each case. *)
Lemma expected_value_cli (args : Args) (file : option ini) (f : field) (v : string) :
  field_arg f args = Some v -> v <> EmptyString -> expected_value args file f = v.
Proof.
  intros E Hv. unfold expected_value. rewrite E. destruct v; congruence.
Qed.

Lemma expected_value_file (args : Args) (file : option ini) (f : field) (v : string) :
  field_arg f args = None \/ field_arg f args = Some EmptyString ->
  file_value file f = Some v -> expected_value args file f = v.
Proof.
  intros [E|E] Hv; unfold expected_value, config_value; now rewrite E, Hv.
Qed.

Lemma expected_value_default (args : Args) (file : option ini) (f : field) :
  field_arg f args = None \/ field_arg f args = Some EmptyString ->
  file_value file f = None -> expected_value args file f = field_default f.
Proof.
  intros [E|E] Hv; unfold expected_value, config_value; now rewrite E, Hv.
Qed.


(** Values of the file as configparser reads them: a password with a lone
    percent sign ends the run at step 2, two percent signs read as one, and a
    reference is replaced by the option it names, one of the DEFAULT section
    included. *)
Example override_interpolates :
  main (Parsed Sample.no_args)
    (Sample.world_with_file
       {[ "cribl" := <[ "ad_password" := "p%ssword" ]> Sample.cribl_section ]})
  = {| calls := []; files := []; status := 1 |} /\
  (exists s,
     override Sample.no_args
       (load_config
          (Some {[ "cribl" := <[ "ad_password" := "100%%" ]> Sample.cribl_section ]}))
     = Ok s /\ ad_password s = "100%") /\
  (exists s,
     override Sample.no_args
       (load_config
          (Some {[ "cribl" := <[ "ad_user" := "joe@%(dom)s" ]> Sample.cribl_section;
                   "DEFAULT" := {[ "dom" := "x.com" ]} ]}))
     = Ok s /\ ad_user s = "joe@x.com").
Proof.
  split; [vm_compute; reflexivity|].
  split; eexists; (split; [vm_compute; reflexivity | reflexivity]).
Qed.

End Configuration.

Section LookupCalls.
Import PyStr ActiveDirectory.

Lemma request_json_failed (o : http_outcome) :
  request_failed o = true -> exists msg, request_json o = Raise (RequestException msg).
Proof.
  destruct o as [msg|c body]; cbn; [eauto|].
  intros ->. eauto.
Qed.

Lemma request_json_ok (c : Z) (body : json) :
  request_failed (HttpResponse c body) = false ->
  request_json (HttpResponse c body) = Ok body.
Proof. cbn. now intros ->. Qed.

Lemma any_id_is_no_match (fn : string) (l : list json) :
  forallb (fun item => is_dict item && negb (item_has_id fn item)) l = true ->
  any_id_is fn l = Ok false.
Proof.
  induction l as [|item l IH]; cbn; [reflexivity|].
  rewrite andb_true_iff. intros [Hitem Hl].
  destruct item; try discriminate. cbn in Hitem.
  apply negb_true_iff in Hitem. rewrite Hitem. now apply IH.
Qed.

Lemma dict_get_nonempty (key : string) (d : list (string * json)) (v : json) :
  Json.dict_get key d = Some v -> Json.truthy (JDict d) = true.
Proof. destruct d; [discriminate | reflexivity]. Qed.

(** A failed request is answered with [False]. *)
Lemma check_lookup_exists_failed (fn : string) (get : http_outcome) :
  request_failed get = true -> check_lookup_exists fn get = Ok false.
Proof.
  intros H. destruct (request_json_failed get H) as (msg & E).
  unfold check_lookup_exists. now rewrite E.
Qed.

(** So is a catalog with no item of that id. *)
Lemma check_lookup_exists_no_match (fn : string) (get : http_outcome) :
  catalog_without fn get = true -> check_lookup_exists fn get = Ok false.
Proof.
  destruct get as [msg|c body]; [discriminate|].
  destruct body; try discriminate.
  unfold catalog_without. rewrite andb_true_iff, negb_true_iff. intros [Hok Hitems].
  unfold check_lookup_exists. rewrite (request_json_ok _ _ Hok). cbn [bind].
  destruct (Json.dict_get "items" d) as [items|] eqn:E; [|discriminate].
  rewrite (dict_get_nonempty _ _ _ E). cbn [negb].
  destruct items; try discriminate.
  destruct l as [|item l]; [reflexivity|].
  cbn [Json.truthy negb except_request].
  now rewrite (any_id_is_no_match fn (item :: l) Hitems).
Qed.

(** What [main] calls once the check has answered [False]. *)
Lemma main_create_path (w : world) (s : Settings) (made : list call)
    (written : list csv_file) :
  check_lookup_exists (lookup_filename s) (catalog_get w) = Ok false ->
  exists rest,
    calls (main_create_or_update w s made written)
    = (made ++ [CallCheckLookupExists; CallCreateLookup] ++ rest)%list /\
    (rest = [] \/ rest = [CallCommitChanges]
     \/ rest = [CallCommitChanges; CallDeployChanges]).
Proof.
  intros H. unfold main_create_or_update. rewrite H.
  destruct (create_lookup (create_post w)) as [[|]|e].
  - unfold main_commit_deploy.
    destruct (commit_changes (commit_post w)) as [[commit_id|]|e].
    + destruct (deploy_changes (deploy_patch w)) as [[|]|e];
        exists [CallCommitChanges; CallDeployChanges]; cbn;
        rewrite <- !app_assoc; auto.
    + exists [CallCommitChanges]. cbn. rewrite <- !app_assoc. auto.
    + exists [CallCommitChanges]. cbn. rewrite <- !app_assoc. auto.
  - exists []. cbn. rewrite <- !app_assoc. auto.
  - exists []. cbn. rewrite <- !app_assoc. auto.
Qed.

(** C6. A failed request for the catalog and a successful response whose
    catalog has no item with the requested file name as its id give the same
    answer, [False], with no exception; on either, [main] goes on to
    [create_lookup] and never calls [update_lookup]. *)
Theorem check_lookup_exists_soft_fail (fn : string) (failed listed : http_outcome) :
  request_failed failed = true ->
  catalog_without fn listed = true ->
  check_lookup_exists fn failed = Ok false /\
  check_lookup_exists fn listed = Ok false /\
  forall (w : world) (s : Settings) (made : list call) (written : list csv_file),
    lookup_filename s = fn ->
    catalog_get w = failed \/ catalog_get w = listed ->
    exists rest,
      calls (main_create_or_update w s made written)
      = (made ++ [CallCheckLookupExists; CallCreateLookup] ++ rest)%list /\
      (rest = [] \/ rest = [CallCommitChanges]
       \/ rest = [CallCommitChanges; CallDeployChanges]).
Proof.
  intros Hfailed Hlisted.
  pose proof (check_lookup_exists_failed fn failed Hfailed) as E1.
  pose proof (check_lookup_exists_no_match fn listed Hlisted) as E2.
  split; [exact E1|]. split; [exact E2|].
  intros w s made written <- [Hw|Hw]; apply main_create_path; now rewrite Hw.
Qed.

Lemma check_lookup_exists_soft_fail_witness :
  check_lookup_exists "users.csv" Sample.timeout = Ok false /\
  check_lookup_exists "users.csv" Sample.catalog_other = Ok false /\
  calls (main (Parsed Sample.no_args)
           (Sample.world_with [Sample.alice] Sample.uploaded Sample.timeout))
  = [CallQueryAdUsers; CallGetBearerToken; CallUploadLookupFile;
     CallCheckLookupExists; CallCreateLookup; CallCommitChanges; CallDeployChanges].
Proof.
  destruct (check_lookup_exists_soft_fail "users.csv" Sample.timeout
              Sample.catalog_other eq_refl eq_refl) as (H1 & H2 & _).
  split; [exact H1|]. split; [exact H2|].
  vm_compute. reflexivity.
Defined.

(** With the file in the catalog the answer is [True] and [main] updates. *)
Example check_lookup_exists_found :
  check_lookup_exists "users.csv" Sample.catalog_users = Ok true /\
  calls (main (Parsed Sample.no_args)
           (Sample.world_with [Sample.alice] Sample.uploaded Sample.catalog_users))
  = [CallQueryAdUsers; CallGetBearerToken; CallUploadLookupFile;
     CallCheckLookupExists; CallUpdateLookup; CallCommitChanges; CallDeployChanges].
Proof. split; vm_compute; reflexivity. Qed.

End LookupCalls.

Section Upload.
Import PyStr ActiveDirectory.

(** When [upload_lookup_file] returns a name, the response was a success
    carrying it under [filename], not empty and with the base name in front. *)
Lemma upload_lookup_file_some_inv (fn t : string) (put : http_outcome) :
  upload_lookup_file fn put = Ok (Some t) ->
  exists c d,
    put = HttpResponse c (JDict d) /\
    request_failed put = false /\
    Json.dict_get "filename" d = Some (JStr t) /\
    t <> EmptyString /\
    startswith t (base_name fn) = true.
Proof.
  unfold upload_lookup_file.
  destruct put as [msg|c body]; [discriminate|].
  destruct (request_failed (HttpResponse c body)) eqn:Hok.
  { destruct (request_json_failed _ Hok) as (msg & ->). discriminate. }
  rewrite (request_json_ok _ _ Hok). cbn [bind].
  destruct body; try discriminate.
  destruct (Json.dict_get "filename" d) as [temp|] eqn:E; [|discriminate].
  destruct (Json.truthy temp) eqn:Ht; cbn [negb]; [|discriminate].
  destruct temp as [| | | |name| |]; try discriminate.
  destruct (startswith name (base_name fn)) eqn:Hp; cbn [negb]; [|discriminate].
  cbn. intros [= ->]. exists c, d.
  repeat split; auto. now apply truthy_nonempty.
Qed.

Lemma upload_lookup_file_some (fn t : string) (c : Z) (d : list (string * json)) :
  request_failed (HttpResponse c (JDict d)) = false ->
  Json.dict_get "filename" d = Some (JStr t) ->
  t <> EmptyString ->
  startswith t (base_name fn) = true ->
  upload_lookup_file fn (HttpResponse c (JDict d)) = Ok (Some t).
Proof.
  intros Hok E Ht Hp. unfold upload_lookup_file.
  rewrite (request_json_ok _ _ Hok). cbn [bind]. rewrite E.
  apply truthy_nonempty in Ht. cbn [Json.truthy]. rewrite Ht, Hp. reflexivity.
Qed.

(** A success with no [filename], or with one of another prefix, is [None]. *)
Lemma upload_lookup_file_malformed (fn : string) (c : Z) (d : list (string * json)) :
  request_failed (HttpResponse c (JDict d)) = false ->
  (Json.dict_get "filename" d = None \/
   exists t, Json.dict_get "filename" d = Some (JStr t) /\
             startswith t (base_name fn) = false) ->
  upload_lookup_file fn (HttpResponse c (JDict d)) = Ok None.
Proof.
  intros Hok H. unfold upload_lookup_file.
  rewrite (request_json_ok _ _ Hok). cbn [bind].
  destruct H as [-> | (t & -> & Hp)]; [reflexivity|].
  cbn [Json.truthy]. destruct (truthy t); cbn [negb]; [|reflexivity].
  now rewrite Hp.
Qed.

(** On [None] from the upload, [main] exits with status 1 and calls nothing
    after [upload_lookup_file]. *)
Lemma main_aborts_on_upload_none (args : Args) (w : world) (s : Settings) :
  override args (load_config (config_file w)) = Ok s ->
  upload_lookup_file (lookup_filename s) (upload_put w) = Ok None ->
  status (main (Parsed args) w) = 1%Z /\
  forall c, In c (calls (main (Parsed args) w)) ->
    c = CallQueryAdUsers \/ c = CallGetBearerToken \/ c = CallUploadLookupFile.
Proof.
  intros Hs Hup. cbn [main]. unfold main_body. rewrite Hs.
  destruct (query_ad_users _ _ _ _ _ _ _) as [written printed|printed].
  2:{ split; [reflexivity|]. cbn. intuition. }
  destruct (get_bearer_token _ _ _) as [[token|]|e].
  2,3: split; [reflexivity|]; cbn; intuition.
  destruct (negb (Json.truthy token) || negb (sliceable token)).
  { split; [reflexivity|]. cbn. intuition. }
  rewrite Hup. split; [reflexivity|]. cbn. intuition.
Qed.

(** The base name of a lookup file name is the part before its first dot,
    the whole name when it has no dot. *)
Lemma base_name_first_dot (base rest : string) :
  contains dot base = false -> base_name (base ++ String dot rest) = base.
Proof.
  intros H. unfold base_name. now rewrite (split_append_separator dot base rest H).
Qed.

Lemma base_name_no_dot (fn : string) :
  contains dot fn = false -> base_name fn = fn.
Proof.
  intros H. unfold base_name. now rewrite (split_no_separator dot fn H).
Qed.

(** Every file name is a part with no dot, alone or followed by a dot and
    the rest. *)
Lemma first_dot_decomposition (fn : string) :
  exists base,
    contains dot base = false /\
    (fn = base \/ exists rest, fn = base ++ String dot rest).
Proof.
  induction fn as [|c fn (base & Hbase & H)].
  - exists EmptyString. auto.
  - destruct (Ascii.eqb c dot) eqn:E.
    + apply Ascii.eqb_eq in E. subst c. exists EmptyString.
      split; [reflexivity|]. right. exists fn. reflexivity.
    + exists (String c base). split; [cbn; now rewrite E|].
      destruct H as [->|(rest & ->)]; [now left|].
      right. exists rest. reflexivity.
Qed.

(** C7. Let [base] be the part of the lookup file name before its first
    dot.  [upload_lookup_file] returns the temporary file name exactly when
    the request succeeds and its response holds, under [filename], a string
    that is not empty and is [base] followed by something, and that string is
    what it returns.  A success with no [filename], with an empty one, or
    with one that does not start with [base], returns [None], and on [None]
    [main] exits with status 1 without a call after the upload. *)
Theorem upload_lookup_file_result (fn base : string) (put : http_outcome) :
  contains dot base = false ->
  fn = base \/ (exists rest, fn = base ++ String dot rest) ->
  (forall t,
     upload_lookup_file fn put = Ok (Some t) <->
     exists c d suffix,
       put = HttpResponse c (JDict d) /\
       request_failed put = false /\
       Json.dict_get "filename" d = Some (JStr t) /\
       t <> EmptyString /\
       t = base ++ suffix) /\
  (forall c d,
     put = HttpResponse c (JDict d) ->
     request_failed put = false ->
     (Json.dict_get "filename" d = None \/
      Json.dict_get "filename" d = Some (JStr EmptyString) \/
      exists t, Json.dict_get "filename" d = Some (JStr t) /\
                ~ (exists suffix, t = base ++ suffix)) ->
     upload_lookup_file fn put = Ok None) /\
  (forall args w s,
     override args (load_config (config_file w)) = Ok s ->
     lookup_filename s = fn ->
     upload_put w = put ->
     upload_lookup_file fn put = Ok None ->
     status (main (Parsed args) w) = 1%Z /\
     forall c, In c (calls (main (Parsed args) w)) ->
       c = CallQueryAdUsers \/ c = CallGetBearerToken \/ c = CallUploadLookupFile).
Proof.
  intros Hbase Hfn.
  assert (Ebase : base_name fn = base).
  { destruct Hfn as [->|(rest & ->)];
      [now apply base_name_no_dot | now apply base_name_first_dot]. }
  split; [|split].
  - intros t. split.
    + intros (c & d & Hput & Hok & E & Ht & Hp)%upload_lookup_file_some_inv.
      rewrite Ebase in Hp. apply startswith_iff in Hp as (suffix & Hp).
      exists c, d, suffix. auto.
    + intros (c & d & suffix & -> & Hok & E & Ht & Hp).
      apply upload_lookup_file_some; auto.
      rewrite Ebase. apply startswith_iff. eauto.
  - intros c d -> Hok [H|[H|(t & H & Hp)]].
    + apply upload_lookup_file_malformed; auto.
    + unfold upload_lookup_file. rewrite (request_json_ok _ _ Hok). cbn [bind].
      now rewrite H.
    + apply upload_lookup_file_malformed; [exact Hok|]. right. exists t.
      split; [exact H|]. rewrite Ebase.
      destruct (startswith t base) eqn:E; [|reflexivity].
      apply startswith_iff in E. contradiction.
  - intros args w s Hs <- <- Hup. now apply (main_aborts_on_upload_none args w s).
Qed.

(** For users.csv the base is users: a name that continues it is returned,
    one that starts otherwise is refused. *)
Lemma upload_lookup_file_result_witness :
  upload_lookup_file "users.csv" Sample.uploaded = Ok (Some "users.abc123.csv") /\
  upload_lookup_file "users.csv" Sample.uploaded_other_prefix = Ok None.
Proof.
  split.
  - apply (proj1 (upload_lookup_file_result "users.csv" "users" Sample.uploaded
                    eq_refl (or_intror (ex_intro _ "csv" eq_refl)))).
    exists 200%Z, [("filename", JStr "users.abc123.csv")], ".abc123.csv".
    repeat split. discriminate.
  - apply (proj1 (proj2 (upload_lookup_file_result "users.csv" "users"
                           Sample.uploaded_other_prefix
                           eq_refl (or_intror (ex_intro _ "csv" eq_refl))))
             200%Z [("filename", JStr "tmp.abc123.csv")]); [reflexivity..|].
    right. right. exists "tmp.abc123.csv". split; [reflexivity|].
    intros (suffix & H). discriminate H.
Defined.

(** The three kinds of response, and the run that stops at the upload. *)
Example upload_lookup_file_samples :
  base_name "users.csv" = "users" /\
  upload_lookup_file "users.csv" Sample.uploaded = Ok (Some "users.abc123.csv") /\
  upload_lookup_file "users.csv" Sample.uploaded_no_filename = Ok None /\
  upload_lookup_file "users.csv" Sample.uploaded_other_prefix = Ok None /\
  upload_lookup_file "users.csv" Sample.server_error = Ok None /\
  main (Parsed Sample.no_args)
    (Sample.world_with [] Sample.uploaded_other_prefix Sample.catalog_other)
  = {| calls := [CallQueryAdUsers; CallGetBearerToken; CallUploadLookupFile];
       files := [ {| csv_path := "users.csv"; csv_rows := [header] |} ];
       status := 1 |}.
Proof. repeat split; vm_compute; reflexivity. Qed.

End Upload.

Section CsvExport.
Import PyStr ActiveDirectory.

Lemma or_else_empty (v : string) : or_else v EmptyString = v.
Proof. destruct v; reflexivity. Qed.

(** [value or ''] is the value, and the empty string for a missing one. *)
Lemma value_or_empty_default (value : option string) :
  value_or_empty value = default EmptyString value.
Proof. destruct value as [v|]; [apply or_else_empty | reflexivity]. Qed.

Lemma entry_row_fields (e : entry) :
  entry_row e
  = map (default EmptyString)
        [sAMAccountName e; DisplayName e; EmailAddress e; Department e; Title e].
Proof. unfold entry_row. now rewrite !value_or_empty_default. Qed.

(** The text of the header row, as [csv.writer] writes it. *)
Lemma csv_line_header :
  csv_line header
  = "sAMAccountName,DisplayName,EmailAddress,Department,Title"
    ++ String cr (String lf EmptyString).
Proof. reflexivity. Qed.

Lemma csv_text_cons (row : list string) (rows : list (list string)) :
  csv_text (row :: rows) = csv_line row ++ csv_text rows.
Proof.
  unfold csv_text. cbn [map String.concat].
  destruct (map csv_line rows) as [|l ls]; cbn [String.concat].
  - now rewrite append_empty_r.
  - reflexivity.
Qed.

(** Once the search has answered and the file can be opened,
    [query_ad_users] returns, having written one file. *)
Lemma query_ad_users_exports (d : directory)
    (server user pw dom sdom out username user_domain : string)
    (entries : list entry) :
  parse_ad_user user dom = Ok (username, user_domain) ->
  truthy (or_else sdom dom) = true ->
  truthy server = true ->
  truthy pw = true ->
  ldap_search d server
    (if truthy user_domain then username ++ "@" ++ user_domain else username)
    pw (search_base_of (or_else sdom dom)) = Ok entries ->
  can_open d out = true ->
  query_ad_users d server user pw dom sdom out
  = Exported [ {| csv_path := out; csv_rows := header :: map entry_row entries |} ]
             ("AD user data exported to " ++ out).
Proof.
  intros Hparse Hdom Hserver Hpw Hsearch Hopen.
  unfold query_ad_users, query_ad_users_try.
  rewrite Hparse. cbn [bind]. rewrite Hdom, Hserver, Hpw. cbn [negb].
  rewrite Hsearch. cbn [bind]. rewrite Hopen. reflexivity.
Qed.

(** And when it returns, what it has written is one file of that form, for
    the entries of some search. *)
Lemma query_ad_users_exported_inv (d : directory)
    (server user pw dom sdom out printed : string) (written : list csv_file) :
  query_ad_users d server user pw dom sdom out = Exported written printed ->
  exists full_username search_base entries,
    ldap_search d server full_username pw search_base = Ok entries /\
    written = [ {| csv_path := out; csv_rows := header :: map entry_row entries |} ].
Proof.
  unfold query_ad_users, query_ad_users_try.
  destruct (parse_ad_user user dom) as [[username user_domain]|e]; cbn [bind].
  2:{ destruct e; discriminate. }
  destruct (truthy (or_else sdom dom)); cbn [negb]; [|discriminate].
  destruct (truthy server); cbn [negb]; [|discriminate].
  destruct (truthy pw); cbn [negb]; [|discriminate].
  match goal with
  | |- context [ldap_search d server ?u pw ?b] =>
      destruct (ldap_search d server u pw b) as [entries|e] eqn:E
  end; cbn [bind].
  2:{ destruct e; discriminate. }
  destruct (can_open d out); cbn [negb]; [|discriminate].
  intros [= <- _]. eauto.
Qed.

(** C8. For every list of entries the search returns, none included,
    [query_ad_users] writes exactly one CSV file: its first row is the fixed
    header, written as the line sAMAccountName,DisplayName,EmailAddress,
    Department,Title, and one row follows per entry, in order, holding the
    five attribute values with the empty string for a missing one. *)
Theorem query_ad_users_csv (d : directory)
    (server user pw dom sdom out username user_domain : string)
    (entries : list entry) :
  parse_ad_user user dom = Ok (username, user_domain) ->
  truthy (or_else sdom dom) = true ->
  truthy server = true ->
  truthy pw = true ->
  ldap_search d server
    (if truthy user_domain then username ++ "@" ++ user_domain else username)
    pw (search_base_of (or_else sdom dom)) = Ok entries ->
  can_open d out = true ->
  exists rows,
    query_ad_users d server user pw dom sdom out
    = Exported [ {| csv_path := out; csv_rows := header :: rows |} ]
               ("AD user data exported to " ++ out) /\
    length rows = length entries /\
    rows = map (fun e => map (default EmptyString)
                           [sAMAccountName e; DisplayName e; EmailAddress e;
                            Department e; Title e])
               entries /\
    csv_text (header :: rows)
    = ("sAMAccountName,DisplayName,EmailAddress,Department,Title"
       ++ String cr (String lf EmptyString))
      ++ csv_text rows.
Proof.
  intros Hparse Hdom Hserver Hpw Hsearch Hopen.
  exists (map entry_row entries). split; [|split; [|split]].
  - now apply (query_ad_users_exports d server user pw dom sdom out
                 username user_domain entries).
  - apply length_map.
  - apply map_ext. intros e. apply entry_row_fields.
  - rewrite csv_text_cons. now rewrite csv_line_header.
Qed.

(** The search that matches nothing: the file holds the header row alone. *)
Lemma query_ad_users_csv_witness :
  query_ad_users (Sample.directory_with []) "ldap://dc1" "joe@x.com" "pw" "x.com"
    EmptyString "users.csv"
  = Exported [ {| csv_path := "users.csv"; csv_rows := [header] |} ]
             "AD user data exported to users.csv".
Proof.
  destruct (query_ad_users_csv (Sample.directory_with []) "ldap://dc1" "joe@x.com"
              "pw" "x.com" EmptyString "users.csv" "joe" "x.com" []
              eq_refl eq_refl eq_refl eq_refl eq_refl eq_refl)
    as (rows & Hq & Hlen & _).
  destruct rows; [exact Hq | discriminate Hlen].
Defined.

(** Two entries, one with attributes missing, and the text written. *)
Example query_ad_users_two_entries :
  query_ad_users (Sample.directory_with [Sample.alice; Sample.bob]) "ldap://dc1"
    "joe@x.com" "pw" "x.com" EmptyString "users.csv"
  = Exported
      [ {| csv_path := "users.csv";
           csv_rows :=
             [ header;
               ["alice"; "Alice Liddell"; "alice@x.com"; "R&D"; "Engineer, senior"];
               ["bob"; EmptyString; "bob@x.com"; EmptyString; EmptyString] ] |} ]
      "AD user data exported to users.csv" /\
  csv_text [ entry_row Sample.bob ]
  = "bob,,bob@x.com,," ++ String cr (String lf EmptyString).
Proof. split; vm_compute; reflexivity. Qed.

End CsvExport.

(** ** The search-to-table script *)

Section PollLoop.
Import PyStr PowerBI.

Variable response_of : nat -> result json.






Lemma checks_cons_status (attempt : nat) (trace : list event) :
  checks (GetStatus attempt :: trace) = S (checks trace).
Proof. reflexivity. Qed.

Lemma checks_cons_sleep (seconds : Z) (trace : list event) :
  checks (Sleep seconds :: trace) = checks trace.
Proof. reflexivity. Qed.








(** The attempts are made in order, each but the last followed by the wait:
    the trace is [k] full rounds and, unless the attempts ran out, the status
    request that ended the loop. *)
Lemma poll_shape (start n : nat) :
  exists k,
    (k <= n)%nat /\
    fst (poll response_of (seq start n))
    = (flat_map (fun attempt => [GetStatus attempt; Sleep 2]) (seq start k)
       ++ match snd (poll response_of (seq start n)) with
          | Exhausted => []
          | _ => [GetStatus (start + k)]
          end)%list /\
    (snd (poll response_of (seq start n)) = Exhausted -> k = n) /\
    (snd (poll response_of (seq start n)) <> Exhausted -> (k < n)%nat).
Proof.
  revert start. induction n as [|n IH]; intros start.
  - exists 0%nat. cbn. repeat split; auto. congruence.
  - cbn [seq poll].
    destruct (job_status_at response_of start) as [job_status|e].
    2:{ exists 0%nat. cbn. rewrite Nat.add_0_r.
        repeat split; auto; try lia; discriminate. }
    destruct (is_done job_status) eqn:Hd.
    { exists 0%nat. cbn. rewrite Nat.add_0_r.
      repeat split; auto; try lia; discriminate. }
    destruct (is_failed job_status) eqn:Hf.
    { exists 0%nat. cbn. rewrite Nat.add_0_r.
      repeat split; auto; try lia; discriminate. }
    destruct (IH (S start)) as (k & Hk & Htrace & Hx & Hnx).
    destruct (poll response_of (seq (S start) n)) as [trace how] eqn:E.
    cbn [fst snd] in *.
    exists (S k). split; [lia|]. split; [|split].
    + rewrite Htrace. cbn [seq flat_map app].
      replace (start + S k)%nat with (S start + k)%nat by lia. reflexivity.
    + intros H. f_equal. now apply Hx.
    + intros H. apply Hnx in H. lia.
Qed.



End PollLoop.


(** The scenario of the specification: running, running, done. *)
Example poll_loop_running_running_done :
  PowerBI.poll_loop
    (fun attempt => Ok (Sample.status_body
                          (if (attempt <? 2)%nat then "running" else "done")))
  = ([PowerBI.GetStatus 0; PowerBI.Sleep 2; PowerBI.GetStatus 1; PowerBI.Sleep 2;
      PowerBI.GetStatus 2], PowerBI.Break).
Proof. reflexivity. Qed.

(** A job that never ends: 60 rounds, then the results are asked for. *)
Example poll_loop_never_done :
  PowerBI.poll_loop (fun _ => Ok (Sample.status_body "running"))
  = (PowerBI.rounds 60, PowerBI.Exhausted) /\
  PowerBI.checks (PowerBI.rounds 60) = 60%nat /\
  forall json_loads text,
    PowerBI.run_from_poll json_loads (fun _ => Ok (Sample.status_body "running"))
      (Ok text)
    = ((PowerBI.rounds 60 ++ [PowerBI.GetResults])%list,
       PowerBI.parse_ndjson json_loads text).
Proof. repeat split. Qed.

(** A job that fails at the second request. *)
Example poll_loop_failed :
  PowerBI.poll_loop
    (fun attempt => Ok (Sample.status_body
                          (if (attempt <? 1)%nat then "running" else "failed")))
  = ([PowerBI.GetStatus 0; PowerBI.Sleep 2; PowerBI.GetStatus 1],
     PowerBI.Raised (Exception "Search job failed")).
Proof. reflexivity. Qed.

(** A status request that times out at the second attempt, and a response
    with an empty list of items. *)
Example poll_loop_request_error :
  PowerBI.poll_loop
    (fun attempt => if (attempt <? 1)%nat then Ok (Sample.status_body "running")
                    else Raise (RequestException "Read timed out"))
  = ([PowerBI.GetStatus 0; PowerBI.Sleep 2; PowerBI.GetStatus 1],
     PowerBI.Raised (RequestException "Read timed out")) /\
  PowerBI.poll_loop (fun _ => Ok (JDict [("items", JList [])]))
  = ([PowerBI.GetStatus 0], PowerBI.Raised (IndexError "list index out of range")).
Proof. split; reflexivity. Qed.

Section NdjsonParsing.
Import PyStr PowerBI.

Variable json_loads : string -> result json.

(** When the loop ends without an exception, [results] holds the truthy
    values of the lines that are not blank, in the order of the lines. *)
Lemma parse_lines_kept (lines : list string) (acc results : list json) :
  parse_lines json_loads acc lines = Ok results ->
  results = (acc ++ kept_values json_loads lines)%list.
Proof.
  revert acc. induction lines as [|line rest IH]; intros acc; cbn [parse_lines].
  - intros [= <-]. cbn. now rewrite app_nil_r.
  - unfold parse_line, kept_values. cbn [flat_map]. fold (kept_values json_loads rest).
    destruct (truthy (strip line)).
    + destruct (json_loads line) as [parsed|e]; cbn [bind]; [|discriminate].
      destruct (Json.truthy parsed); cbn [bind]; intros H; apply IH in H.
      * now rewrite <- app_assoc in H.
      * exact H.
    + cbn [bind]. intros H. now apply IH in H.
Qed.

(** It ends without one when every line that is not blank parses. *)
Lemma parse_lines_ok (lines : list string) (acc : list json) :
  Forall (fun line => truthy (strip line) = false \/ exists v, json_loads line = Ok v)
         lines ->
  parse_lines json_loads acc lines = Ok (acc ++ kept_values json_loads lines)%list.
Proof.
  intros H. revert acc. induction H as [|line rest Hline _ IH]; intros acc.
  - cbn. now rewrite app_nil_r.
  - cbn [parse_lines]. unfold parse_line, kept_values. cbn [flat_map].
    fold (kept_values json_loads rest).
    destruct (truthy (strip line)) eqn:Hb.
    + destruct Hline as [Hline|(v & Hv)]; [discriminate|]. rewrite Hv. cbn [bind].
      destruct (Json.truthy v); cbn [bind]; rewrite IH.
      * now rewrite <- app_assoc.
      * reflexivity.
    + cbn [bind]. apply IH.
Qed.

Lemma kept_values_truthy (lines : list string) :
  Forall (fun v => Json.truthy v = true) (kept_values json_loads lines).
Proof.
  induction lines as [|line rest IH]; [constructor|].
  unfold kept_values. cbn [flat_map]. fold (kept_values json_loads rest).
  apply List.Forall_app. split; [|exact IH].
  destruct (truthy (strip line)); [|constructor].
  destruct (json_loads line) as [parsed|e]; [|constructor].
  destruct (Json.truthy parsed) eqn:E; repeat constructor. exact E.
Qed.

(** On lines that are blank or objects, the kept values are the objects that
    are not empty. *)
Lemma kept_values_objects (lines : list string) :
  Forall (blank_or_object json_loads) lines ->
  kept_values json_loads lines = nonempty_objects json_loads lines.
Proof.
  induction 1 as [|line rest Hline _ IH]; [reflexivity|].
  unfold kept_values, nonempty_objects. cbn [flat_map].
  fold (kept_values json_loads rest). fold (nonempty_objects json_loads rest).
  rewrite IH. f_equal.
  destruct (truthy (strip line)) eqn:Hb; [|reflexivity].
  destruct Hline as [Hline|(d & Hd)]; [congruence|].
  rewrite Hd. destruct d; reflexivity.
Qed.

Lemma blank_or_object_parses (lines : list string) :
  Forall (blank_or_object json_loads) lines ->
  Forall (fun line => truthy (strip line) = false \/ exists v, json_loads line = Ok v)
         lines.
Proof.
  apply List.Forall_impl. intros line [H|(d & H)]; [now left | right; eauto].
Qed.

Lemma nonempty_objects_in (lines : list string) (v : json) :
  In v (nonempty_objects json_loads lines) <->
  exists line item d,
    In line lines /\ truthy (strip line) = true /\
    json_loads line = Ok v /\ v = JDict (item :: d).
Proof.
  unfold nonempty_objects. rewrite in_flat_map. split.
  - intros (line & Hline & Hv).
    destruct (truthy (strip line)) eqn:Hb; [|contradiction].
    destruct (json_loads line) as [parsed|e] eqn:E; [|contradiction].
    destruct parsed as [| | | | | |d]; try contradiction.
    destruct d as [|item d]; [contradiction|].
    destruct Hv as [<-|[]]. exists line, item, d. auto.
  - intros (line & item & d & Hline & Hb & E & ->).
    exists line. split; [exact Hline|]. rewrite Hb, E. now left.
Qed.

(** C4. When every line of the results text is blank or parses to a JSON
    object, the parsing loop ends with exactly the objects that are not
    empty, in the order of their lines: a blank line and a line that parses
    to the empty object add nothing. *)
Theorem parse_ndjson_objects (text : string) :
  Forall (blank_or_object json_loads) (split newline (strip text)) ->
  parse_ndjson json_loads text
  = Ok (nonempty_objects json_loads (split newline (strip text))) /\
  (forall v,
     In v (nonempty_objects json_loads (split newline (strip text))) <->
     exists line item d,
       In line (split newline (strip text)) /\ truthy (strip line) = true /\
       json_loads line = Ok v /\ v = JDict (item :: d)) /\
  (forall before line after,
     split newline (strip text) = (before ++ line :: after)%list ->
     nonempty_objects json_loads (split newline (strip text))
     = (nonempty_objects json_loads before
        ++ (if truthy (strip line) then
              match json_loads line with
              | Ok (JDict (item :: d)) => [JDict (item :: d)]
              | _ => []
              end
            else [])
        ++ nonempty_objects json_loads after)%list).
Proof.
  intros H. split; [|split].
  - unfold parse_ndjson.
    rewrite (parse_lines_ok _ _ (blank_or_object_parses _ H)).
    cbn [app]. now rewrite (kept_values_objects _ H).
  - intros v. apply nonempty_objects_in.
  - intros before line after ->. unfold nonempty_objects.
    rewrite flat_map_app. reflexivity.
Qed.

(** C9. Whatever the lines hold, every value the parsing loop keeps is
    truthy: a line whose value is null, false, 0, a zero float, the empty
    string, the empty array or the empty object adds nothing to [results],
    which are the truthy values of the lines that are not blank. *)
Theorem parse_ndjson_drops_falsy (text : string) (results : list json) :
  parse_ndjson json_loads text = Ok results ->
  results = kept_values json_loads (split newline (strip text)) /\
  Forall (fun v => Json.truthy v = true) results /\
  ~ In JNull results /\
  ~ In (JBool false) results /\
  ~ In (JInt 0) results /\
  (forall sign, ~ In (JFloat (S754_zero sign)) results) /\
  ~ In (JStr EmptyString) results /\
  ~ In (JList []) results /\
  ~ In (JDict []) results /\
  (forall line v,
     In line (split newline (strip text)) ->
     json_loads line = Ok v -> Json.truthy v = false ->
     ~ In v results).
Proof.
  intros H. apply parse_lines_kept in H. cbn [app] in H.
  assert (Ht : Forall (fun v => Json.truthy v = true) results).
  { rewrite H. apply kept_values_truthy. }
  assert (Hfalsy : forall v, Json.truthy v = false -> ~ In v results).
  { intros v Hv Hin. rewrite List.Forall_forall in Ht. apply Ht in Hin. congruence. }
  split; [exact H|]. split; [exact Ht|].
  repeat split; try (apply Hfalsy; reflexivity).
  - intros sign. now apply Hfalsy.
  - intros line v _ _. apply Hfalsy.
Qed.

(** The sorting of the lines, decided. *)
Lemma blank_or_object_decide (lines : list string) :
  forallb (fun line =>
             negb (truthy (strip line)) ||
             match json_loads line with Ok (JDict _) => true | _ => false end)
          lines = true ->
  Forall (blank_or_object json_loads) lines.
Proof.
  rewrite forallb_forall. intros H. apply List.Forall_forall. intros line Hline.
  specialize (H line Hline). apply orb_true_iff in H as [H|H].
  - left. now apply negb_true_iff.
  - right. destruct (json_loads line) as [[| | | | | |d]|e]; try discriminate. eauto.
Qed.

End NdjsonParsing.

Lemma parse_ndjson_objects_witness :
  PowerBI.parse_ndjson MiniJson.json_loads Sample.results_text
  = Ok [JDict [("a", JInt 1)]; JDict [("a", JInt 2)]].
Proof.
  destruct (parse_ndjson_objects MiniJson.json_loads Sample.results_text) as (E & _).
  - apply blank_or_object_decide. vm_compute. reflexivity.
  - rewrite E. vm_compute. reflexivity.
Defined.

Lemma parse_ndjson_drops_falsy_witness :
  PowerBI.parse_ndjson MiniJson.json_loads Sample.falsy_text
  = Ok [JDict [("a", JInt 1)]; JInt 7] /\
  Forall (fun v => Json.truthy v = true) [JDict [("a", JInt 1)]; JInt 7] /\
  ~ In JNull [JDict [("a", JInt 1)]; JInt 7].
Proof.
  assert (H : PowerBI.parse_ndjson MiniJson.json_loads Sample.falsy_text
              = Ok [JDict [("a", JInt 1)]; JInt 7]) by (vm_compute; reflexivity).
  destruct (parse_ndjson_drops_falsy MiniJson.json_loads Sample.falsy_text _ H)
    as (_ & Ht & Hnull & _).
  split; [exact H|]. split; [exact Ht | exact Hnull].
Defined.

Section Table.
Import PyStr PowerBI.

Lemma isna_iff (v : cell) :
  isna v = true <-> v = None \/ v = Some JNull \/ v = Some (JFloat S754_nan).
Proof.
  split.
  - destruct v as [[| | |[]| | |]|]; cbn; intros H; try discriminate; auto.
  - intros [->|[->| ->]]; reflexivity.
Qed.

Lemma isna_false_iff (v : cell) :
  isna v = false <-> v <> None /\ v <> Some JNull /\ v <> Some (JFloat S754_nan).
Proof.
  destruct (isna v) eqn:E.
  - apply isna_iff in E. split; [discriminate | tauto].
  - split; [|reflexivity]. intros _.
    repeat split; intros ->; discriminate.
Qed.

Lemma some_value_decide (r : list (string * cell)) :
  existsb (fun '(_, v) => negb (isna v)) r = true <-> some_value r.
Proof.
  rewrite existsb_exists. split.
  - intros ([c v] & Hin & H). exists c, v. split; [exact Hin|].
    now apply negb_true_iff.
  - intros (c & v & Hin & H). exists (c, v). split; [exact Hin|].
    now apply negb_true_iff.
Qed.

Lemma all_missing_not_some (r : list (string * cell)) :
  all_missing r -> ~ some_value r.
Proof. intros H (c & v & Hin & Hv). rewrite (H c v Hin) in Hv. discriminate. Qed.

Lemma dropna_all_in (df : DataFrame) (i : nat) (r : list (string * cell)) :
  In (i, r) (rows (dropna_all df)) <-> In (i, r) (rows df) /\ some_value r.
Proof.
  unfold dropna_all. cbn [rows]. rewrite filter_In.
  now rewrite some_value_decide.
Qed.

Lemma filter_sublist {A} (f : A -> bool) (l : list A) :
  sublist (List.filter f l) l.
Proof.
  induction l as [|x l IH]; cbn; [constructor|].
  destruct (f x); now constructor.
Qed.

(** C5, as amended.  [dropna(how='all')] leaves the columns as they are and
    keeps, in their order and with their index labels, exactly the rows that
    have a cell that is not missing.  A cell is missing when the record had
    no such key, or holds null or NaN there, and in no other case: a row
    whose every cell is missing is dropped, and a row with a cell that holds
    anything else is kept, a string included, the empty one too. *)
Theorem dropna_all_rows (df : DataFrame) :
  columns (dropna_all df) = columns df /\
  sublist (rows (dropna_all df)) (rows df) /\
  (forall i r,
     In (i, r) (rows (dropna_all df)) <->
     In (i, r) (rows df) /\
     exists c v,
       In (c, v) r /\
       v <> None /\ v <> Some JNull /\ v <> Some (JFloat S754_nan)) /\
  (forall i r,
     In (i, r) (rows df) ->
     (forall c v, In (c, v) r ->
        v = None \/ v = Some JNull \/ v = Some (JFloat S754_nan)) ->
     ~ In (i, r) (rows (dropna_all df))) /\
  (forall i r c text,
     In (i, r) (rows df) -> In (c, Some (JStr text)) r ->
     In (i, r) (rows (dropna_all df))).
Proof.
  split; [reflexivity|]. split; [apply filter_sublist|].
  split; [|split].
  - intros i r. rewrite dropna_all_in. unfold some_value.
    split; intros (Hin & c & v & Hc & Hv); (split; [exact Hin|]); exists c, v;
      (split; [exact Hc|]); now apply isna_false_iff.
  - intros i r _ Hall Hin. apply dropna_all_in in Hin as [_ Hsome].
    apply (all_missing_not_some r); [|exact Hsome].
    intros c v Hc. apply isna_iff. now apply (Hall c).
  - intros i r c text Hin Hc. apply dropna_all_in. split; [exact Hin|].
    exists c, (Some (JStr text)). split; [exact Hc | reflexivity].
Qed.

(** C5, as stated, fails when the empty string counts as empty: a row whose
    only field is the empty string is kept. *)
Lemma row_of_empty_strings_is_kept :
  ~ (forall (df : DataFrame) (i : nat) (r : list (string * cell)),
       In (i, r) (rows df) ->
       (forall c v, In (c, v) r -> empty_or_missing v = true) ->
       ~ In (i, r) (rows (dropna_all df))).
Proof.
  intros H.
  apply (H {| columns := ["a"]; rows := [(0%nat, [("a", Some (JStr EmptyString))])] |}
           0%nat [("a", Some (JStr EmptyString))]).
  - now left.
  - intros c v [[= <- <-]|[]]. reflexivity.
  - cbn. now left.
Qed.

(** *** From the records to the table *)

Variable conv : dtype_conversion.

Lemma mem_in (x : string) (l : list string) : mem x l = true <-> In x l.
Proof.
  unfold mem. rewrite existsb_exists. split.
  - intros (y & Hy & E). apply String.eqb_eq in E. now subst.
  - intros H. exists x. split; [exact H | apply String.eqb_refl].
Qed.

Lemma union_keys_in (keys seen : list string) (k : string) :
  In k (union_keys seen keys) <-> In k seen \/ In k keys.
Proof.
  revert seen. induction keys as [|key rest IH]; intros seen; cbn [union_keys].
  - cbn. tauto.
  - rewrite IH. destruct (mem key seen) eqn:E.
    + apply mem_in in E. cbn. split; [tauto|].
      intros [H|[<-|H]]; auto.
    + rewrite in_app_iff. cbn. tauto.
Qed.

Lemma dict_get_key (k : string) (d : list (string * json)) (v : json) :
  Json.dict_get k d = Some v -> In k (map fst d).
Proof.
  induction d as [|[k' v'] d IH]; cbn; [discriminate|].
  destruct (String.eqb k' k) eqn:E.
  - apply String.eqb_eq in E. auto.
  - auto.
Qed.

Lemma number_from_in {A} (l : list A) (start i : nat) (x : A) :
  In (i, x) (number_from start l) <->
  (start <= i)%nat /\ nth_error l (i - start) = Some x.
Proof.
  revert start. induction l as [|y l IH]; intros start; cbn [number_from].
  - cbn. split; [contradiction|]. intros [_ H]. destruct (i - start)%nat; discriminate.
  - cbn [In]. rewrite IH. split.
    + intros [[= <- <-]|[Hle H]].
      * split; [lia|]. now rewrite Nat.sub_diag.
      * split; [lia|]. replace (i - start)%nat with (S (i - S start)) by lia. exact H.
    + intros [Hle H]. destruct (i - start)%nat as [|n] eqn:E.
      * left. cbn in H. injection H as <-. f_equal. lia.
      * right. split; [lia|]. cbn in H. now replace (i - S start)%nat with n by lia.
Qed.

(** The row the table has for the record at position [i], before rows are
    dropped: its cells under the columns that are not removed. *)
Lemma drop_columns_from_records_in (results : list (list (string * json)))
    (i : nat) (r : list (string * cell)) :
  In (i, r) (rows (drop_columns columns_to_remove (from_records conv results))) <->
  exists record,
    nth_error results i = Some record /\
    r = List.filter (fun '(c, _) => negb (mem c columns_to_remove))
          (map (fun c => (c, as_dtype conv (map (Json.dict_get c) results)
                               (Json.dict_get c record)))
               (union_keys [] (flat_map (map fst) results))).
Proof.
  unfold drop_columns, from_records. cbn [rows columns]. rewrite in_map_iff. split.
  - intros ([j r0] & [= <- <-] & Hin).
    apply number_from_in in Hin as [_ Hnth]. rewrite Nat.sub_0_r in Hnth.
    rewrite nth_error_map in Hnth.
    destruct (nth_error results j) as [record|]; [|discriminate].
    injection Hnth as <-. eauto.
  - intros (record & Hnth & ->).
    eexists (i, _). split; [reflexivity|].
    apply number_from_in. split; [lia|]. rewrite Nat.sub_0_r.
    rewrite nth_error_map, Hnth. reflexivity.
Qed.

(** A record makes it to the table exactly when it has a value that is not
    null under a key that is not one of the removed columns. *)
Lemma build_table_keeps (results : list (list (string * json)))
    (i : nat) (record : list (string * json)) :
  nth_error results i = Some record ->
  (exists r, In (i, r) (rows (build_table conv results))) <->
  (exists k v,
     mem k columns_to_remove = false /\
     Json.dict_get k record = Some v /\ isna (Some v) = false).
Proof.
  intros Hnth. unfold build_table. split.
  - intros (r & Hin). apply dropna_all_in in Hin as [Hin (c & v & Hc & Hv)].
    apply drop_columns_from_records_in in Hin as (record' & Hnth' & ->).
    assert (record' = record) by congruence. subst record'.
    apply filter_In in Hc as [Hc Hkeep]. apply negb_true_iff in Hkeep.
    apply in_map_iff in Hc as (c' & [= -> <-] & _).
    rewrite as_dtype_isna in Hv.
    destruct (Json.dict_get c record) as [v|] eqn:E; [|discriminate].
    exists c, v. auto.
  - intros (k & v & Hkeep & Hget & Hv).
    eexists. apply dropna_all_in. split.
    + apply drop_columns_from_records_in. exists record. split; [exact Hnth|reflexivity].
    + exists k, (as_dtype conv (map (Json.dict_get k) results) (Some v)).
      split; [|now rewrite as_dtype_isna].
      apply filter_In. split; [|now rewrite Hkeep].
      apply in_map_iff. exists k. split; [now rewrite Hget|].
      apply union_keys_in. right. apply in_flat_map. exists record. split.
      * now apply nth_error_In with i.
      * now apply dict_get_key with v.
Qed.

End Table.

(** The scenario of the specification, from the status sequence to the
    table: two rows, and none of the removed columns. *)
Example search_to_table_scenario :
  let response_of :=
    fun attempt =>
      Ok (Sample.status_body (if (attempt <? 2)%nat then "running" else "done")) in
  let text :=
    (Sample.object_a "1" ++ Sample.nl ++ Sample.nl ++ "{}" ++ Sample.nl
     ++ "{" ++ MiniJson.q "a" ++ ":2," ++ MiniJson.q "job" ++ ":7}")%string in
  exists trace records,
    PowerBI.run_from_poll MiniJson.json_loads response_of (Ok text)
    = ((trace ++ [PowerBI.GetResults])%list, Ok (map JDict records)) /\
    PowerBI.as_records (map JDict records) = Some records /\
    PowerBI.build_table Sample.values_kept records
    = {| PowerBI.columns := ["a"];
         PowerBI.rows := [ (0%nat, [("a", Some (JInt 1))]);
                           (1%nat, [("a", Some (JInt 2))]) ] |}.
Proof.
  eexists _, [[("a", JInt 1)]; [("a", JInt 2); ("job", JInt 7)]].
  repeat split; vm_compute; reflexivity.
Qed.

(** A record with nothing but removed columns and nulls leaves no row. *)
Example build_table_drops_empty_row :
  PowerBI.build_table Sample.values_kept Sample.mixed_records
  = {| PowerBI.columns := ["a"];
       PowerBI.rows := [ (0%nat, [("a", Some (JInt 1))]);
                         (2%nat, [("a", Some (JStr EmptyString))]) ] |}.
Proof. vm_compute. reflexivity. Qed.

Lemma float_of_int_not_nan (n : Z) : Sample.float_of_int n <> S754_nan.
Proof.
  unfold Sample.float_of_int.
  destruct (binary_normalize 53 1024 n 0 false); discriminate.
Qed.

Lemma to_float64_isna (column : list PowerBI.cell) (v : PowerBI.cell) :
  PowerBI.isna (Sample.to_float64 column v) = PowerBI.isna v.
Proof.
  unfold Sample.to_float64.
  destruct (forallb Sample.integer_or_missing column && existsb PowerBI.isna column);
    [|reflexivity].
  destruct v as [[| |n| | | |]|]; try reflexivity. cbn.
  pose proof (float_of_int_not_nan n) as H.
  destruct (Sample.float_of_int n); congruence.
Qed.

(** The conversion of a column of integers and missing cells, as one
    [dtype_conversion]. *)
Definition float64_beside_missing : PowerBI.dtype_conversion :=
  {| PowerBI.as_dtype := Sample.to_float64;
     PowerBI.as_dtype_isna := to_float64_isna |}.

(** Integers beside a missing cell become floats, and one above 2^53 is
    rounded on the way. *)
Example build_table_converts_integers :
  PowerBI.build_table float64_beside_missing
    [ [("a", JInt 9007199254740993)]; [("b", JInt 1)] ]
  = {| PowerBI.columns := ["a"; "b"];
       PowerBI.rows :=
         [ (0%nat, [ ("a", Some (JFloat (S754_finite false 4503599627370496 1)));
                     ("b", None) ]);
           (1%nat, [ ("a", None);
                     ("b", Some (JFloat (S754_finite false 4503599627370496 (-52)))) ]) ] |}.
Proof. vm_compute. reflexivity. Qed.

(** * More of the directory-to-lookup sync *)

Section DirectoryQuery.
Import PyStr ActiveDirectory.

(** X1. The search base of a dotted domain: the components of the domain,
    in order, each as [dc=component], joined by commas.  So mycompany.com
    gives dc=mycompany,dc=com. *)
Theorem search_base_of_components (components : list string) :
  components <> [] ->
  Forall (fun component => contains dot component = false) components ->
  search_base_of (join "." components)
  = join "," (map (fun component => "dc=" ++ component) components).
Proof.
  intros Hne H. unfold search_base_of.
  change "." with (String dot EmptyString).
  now rewrite (split_join dot components Hne H).
Qed.

Lemma search_base_of_components_witness :
  search_base_of "mycompany.com" = "dc=mycompany,dc=com".
Proof.
  apply (search_base_of_components ["mycompany"; "com"]).
  - discriminate.
  - repeat constructor.
Defined.

Lemma parse_ad_user_upn (s user dom d : string) :
  user <> EmptyString -> contains at_sign user = false ->
  strip s = user ++ String at_sign dom ->
  parse_ad_user s d = Ok (user, or_else dom d).
Proof.
  intros Hu Hat Hs. unfold parse_ad_user.
  assert (Ht : truthy s = true).
  { apply strip_truthy. rewrite Hs. destruct user; [congruence | reflexivity]. }
  rewrite Ht, Hs. cbn [negb].
  rewrite contains_append, Hat. cbn [orb contains].
  rewrite Ascii.eqb_refl.
  rewrite split1_first by exact Hat.
  apply truthy_nonempty in Hu. now rewrite Hu.
Qed.

Lemma parse_ad_user_netbios (sep : ascii) (s user dom d : string) :
  user <> EmptyString ->
  contains at_sign user = false -> contains at_sign dom = false ->
  contains backslash dom = false ->
  (sep = backslash \/
   sep = slash /\ contains slash dom = false /\ contains backslash user = false) ->
  strip s = dom ++ String sep user ->
  parse_ad_user s d = Ok (user, or_else dom d).
Proof.
  intros Hu Hatu Hatd Hbsd Hsep Hs. unfold parse_ad_user.
  assert (Ht : truthy s = true).
  { apply strip_truthy. rewrite Hs. destruct dom; reflexivity. }
  rewrite Ht, Hs. cbn [negb].
  assert (Hsep_at : Ascii.eqb sep at_sign = false).
  { destruct Hsep as [-> | [-> _]]; reflexivity. }
  rewrite contains_append, Hatd. cbn [orb contains]. rewrite Hsep_at, Hatu.
  apply truthy_nonempty in Hu.
  destruct Hsep as [-> | (-> & Hsld & Hbsu)].
  - rewrite contains_append, Hbsd. cbn [orb contains]. rewrite Ascii.eqb_refl.
    cbn [orb]. rewrite split1_first by exact Hbsd. now rewrite Hu.
  - rewrite !contains_append, Hbsd, Hsld. cbn [orb contains].
    replace (Ascii.eqb slash backslash) with false by reflexivity.
    rewrite Hbsu, Ascii.eqb_refl. cbn [orb].
    rewrite split1_first by exact Hsld. now rewrite Hu.
Qed.

(** X2. The NetBIOS form [dom\user] and the UPN form [user@dom] of one
    identity are parsed to the same pair, the user with the domain written in
    the input, or with [ad_domain] when that is empty; so [query_ad_users]
    ends the same way for both. *)
Theorem parse_ad_user_netbios_as_upn (s1 s2 user dom ad_domain : string) :
  user <> EmptyString ->
  contains at_sign user = false ->
  contains at_sign dom = false ->
  contains backslash dom = false ->
  strip s1 = dom ++ String backslash user ->
  strip s2 = user ++ String at_sign dom ->
  parse_ad_user s1 ad_domain = Ok (user, or_else dom ad_domain) /\
  parse_ad_user s2 ad_domain = Ok (user, or_else dom ad_domain) /\
  forall d server pw sd out,
    query_ad_users d server s1 pw ad_domain sd out
    = query_ad_users d server s2 pw ad_domain sd out.
Proof.
  intros Hu Hatu Hatd Hbsd Hs1 Hs2.
  assert (E1 : parse_ad_user s1 ad_domain = Ok (user, or_else dom ad_domain)).
  { apply (parse_ad_user_netbios backslash); auto. }
  assert (E2 : parse_ad_user s2 ad_domain = Ok (user, or_else dom ad_domain)).
  { now apply parse_ad_user_upn. }
  split; [exact E1|]. split; [exact E2|].
  intros. unfold query_ad_users, query_ad_users_try. now rewrite E1, E2.
Qed.

Lemma parse_ad_user_netbios_as_upn_witness :
  parse_ad_user " CORP\joe " "x.com" = Ok ("joe", "CORP") /\
  parse_ad_user "joe@CORP" "x.com" = Ok ("joe", "CORP").
Proof.
  destruct (parse_ad_user_netbios_as_upn " CORP\joe " "joe@CORP" "joe" "CORP" "x.com")
    as (H1 & H2 & _); try reflexivity; [discriminate|].
  split; [exact H1 | exact H2].
Defined.

(** X3. An input with nothing before its [@], or nothing after its only
    separator, is refused: the [ValueError] names the stripped input and says
    that the user name cannot be empty, whatever [ad_domain] is. *)
Theorem parse_ad_user_empty_username (s ad_domain : string) :
  (exists rest, strip s = String at_sign rest) \/
  (exists dom sep,
     strip s = dom ++ String sep EmptyString /\
     (sep = backslash \/ sep = slash) /\
     contains at_sign dom = false /\
     contains backslash dom = false /\ contains slash dom = false) ->
  parse_ad_user s ad_domain
  = Raise (ValueError ("Invalid AD user format: " ++ strip s
                       ++ ". Username cannot be empty.")).
Proof.
  intros H. unfold parse_ad_user.
  assert (Ht : truthy s = true).
  { apply strip_truthy. destruct H as [(rest & ->)|(dom & sep & -> & _)].
    - reflexivity.
    - destruct dom; reflexivity. }
  rewrite Ht. cbn [negb].
  destruct H as [(rest & Hs)|(dom & sep & Hs & Hsep & Hat & Hbs & Hsl)].
  - rewrite Hs. cbn [contains]. rewrite Ascii.eqb_refl.
    change (String at_sign rest) with (EmptyString ++ String at_sign rest).
    rewrite split1_first by reflexivity. reflexivity.
  - rewrite Hs.
    assert (Hsep_at : Ascii.eqb sep at_sign = false).
    { destruct Hsep as [-> | ->]; reflexivity. }
    rewrite !contains_append, Hat, Hbs, Hsl. cbn [orb contains]. rewrite Hsep_at.
    destruct Hsep as [-> | ->].
    + rewrite Ascii.eqb_refl. cbn [orb].
      rewrite split1_first by exact Hbs. reflexivity.
    + replace (Ascii.eqb slash backslash) with false by reflexivity.
      rewrite Ascii.eqb_refl. cbn [orb].
      rewrite split1_first by exact Hsl. reflexivity.
Qed.

Lemma parse_ad_user_empty_username_witness :
  parse_ad_user "@x.com" "x.com"
  = Raise (ValueError "Invalid AD user format: @x.com. Username cannot be empty.") /\
  parse_ad_user "CORP\" "x.com"
  = Raise (ValueError "Invalid AD user format: CORP\. Username cannot be empty.").
Proof.
  split.
  - apply (parse_ad_user_empty_username "@x.com" "x.com").
    left. exists "x.com". reflexivity.
  - apply (parse_ad_user_empty_username "CORP\" "x.com").
    right. exists "CORP", backslash. repeat split; auto.
Defined.

(** X4. The empty check comes before the stripping: a user made of
    whitespace only is not refused as missing.  With a domain it is returned
    as the empty user name; without one the error is that of a plain user
    name with no domain. *)
Theorem parse_ad_user_whitespace_only (s ad_domain : string) :
  s <> EmptyString ->
  all_space s = true ->
  parse_ad_user s ad_domain
  = if truthy ad_domain then Ok (EmptyString, ad_domain)
    else Raise (ValueError "AD domain must be specified when using plain username: ").
Proof.
  intros Hs Hsp. unfold parse_ad_user.
  apply truthy_nonempty in Hs. rewrite Hs. cbn [negb].
  rewrite (all_space_strip s Hsp). cbn.
  destruct (truthy ad_domain); reflexivity.
Qed.

Lemma parse_ad_user_whitespace_only_witness :
  parse_ad_user "   " "x.com" = Ok (EmptyString, "x.com").
Proof.
  apply (parse_ad_user_whitespace_only "   " "x.com"); [discriminate | reflexivity].
Defined.

(** X5. A missing server, password or search domain, like a user that
    [parse_ad_user] refuses, ends [query_ad_users] with a configuration error
    and exit status 1 before the directory is contacted: the outcome is the
    same for every directory, and no file is written. *)
Theorem query_ad_users_configuration_error (d : directory)
    (server user pw dom sdom out : string) :
  truthy server = false \/ truthy pw = false \/
  truthy (or_else sdom dom) = false \/
  (exists msg, parse_ad_user user dom = Raise (ValueError msg)) ->
  exists msg,
    forall d' : directory,
      query_ad_users d' server user pw dom sdom out
      = QueryExit1 ("Configuration error: " ++ msg).
Proof.
  intros H. unfold query_ad_users, query_ad_users_try.
  destruct (parse_ad_user_total user dom) as [(n & u & E)|(msg & E)].
  2:{ rewrite E. cbn [bind]. eauto. }
  rewrite E. cbn [bind].
  destruct (truthy (or_else sdom dom)) eqn:Hd; cbn [negb]; [|eauto].
  destruct (truthy server) eqn:Hs; cbn [negb]; [|eauto].
  destruct (truthy pw) eqn:Hp; cbn [negb]; [|eauto].
  destruct H as [H|[H|[H|(msg & H)]]]; congruence.
Qed.

Lemma query_ad_users_configuration_error_witness :
  exists msg,
    forall d' : directory,
      query_ad_users d' "ldap://dc1" "joe@x.com" EmptyString "x.com" EmptyString
        "users.csv"
      = QueryExit1 ("Configuration error: " ++ msg).
Proof.
  apply (query_ad_users_configuration_error (Sample.directory_with [])).
  right. left. reflexivity.
Defined.

(** X6. When the configuration is complete and the bind or the search
    raises, [query_ad_users] writes nothing and exits with status 1; the line
    it prints is the error of the directory, as a query error unless the
    exception is a [ValueError]. *)
Theorem query_ad_users_directory_error (d : directory)
    (server user pw dom sdom out username user_domain : string) (e : exn) :
  parse_ad_user user dom = Ok (username, user_domain) ->
  truthy (or_else sdom dom) = true ->
  truthy server = true ->
  truthy pw = true ->
  ldap_search d server
    (if truthy user_domain then username ++ "@" ++ user_domain else username)
    pw (search_base_of (or_else sdom dom)) = Raise e ->
  query_ad_users d server user pw dom sdom out
  = QueryExit1 (match e with
                | ValueError msg => "Configuration error: " ++ msg
                | _ => "Error querying AD: " ++ exn_str e
                end).
Proof.
  intros Hparse Hdom Hserver Hpw Hsearch.
  unfold query_ad_users, query_ad_users_try.
  rewrite Hparse. cbn [bind]. rewrite Hdom, Hserver, Hpw. cbn [negb].
  rewrite Hsearch. cbn [bind]. destruct e; reflexivity.
Qed.

Lemma query_ad_users_directory_error_witness :
  query_ad_users
    {| ldap_search := fun _ _ _ _ => Raise (Exception "invalidCredentials");
       can_open := fun _ => true |}
    "ldap://dc1" "CORP\joe" "pw" EmptyString "x.com" "users.csv"
  = QueryExit1 "Error querying AD: invalidCredentials".
Proof.
  apply (query_ad_users_directory_error _ "ldap://dc1" "CORP\joe" "pw" EmptyString
           "x.com" "users.csv" "joe" "CORP" (Exception "invalidCredentials"));
    reflexivity.
Defined.

End DirectoryQuery.

Section ApiCalls.
Import PyStr ActiveDirectory.

Lemma request_failed_cases (o : http_outcome) :
  (request_failed o = true /\ exists msg, request_json o = Raise (RequestException msg)) \/
  (request_failed o = false /\ exists c body, o = HttpResponse c body /\ request_json o = Ok body).
Proof.
  destruct (request_failed o) eqn:E.
  - left. split; [reflexivity|]. now apply request_json_failed.
  - right. split; [reflexivity|]. destruct o as [msg|c body]; [discriminate|].
    exists c, body. split; [reflexivity|]. now apply request_json_ok.
Qed.

(** X7. [get_bearer_token] refuses missing credentials with a [ValueError]
    whatever the token endpoint would answer.  With both given, a failed
    request is answered by [None], and a token is returned exactly when the
    request succeeds with an object that has an [access_token]: that value. *)
Theorem get_bearer_token_result (client_id client_secret : string)
    (post : http_outcome) :
  (truthy client_id = false \/ truthy client_secret = false ->
   exists msg, get_bearer_token client_id client_secret post = Raise (ValueError msg)) /\
  (truthy client_id = true -> truthy client_secret = true ->
   (request_failed post = true ->
    get_bearer_token client_id client_secret post = Ok None) /\
   (forall token,
      get_bearer_token client_id client_secret post = Ok (Some token) <->
      exists c d,
        post = HttpResponse c (JDict d) /\ request_failed post = false /\
        Json.dict_get "access_token" d = Some token)).
Proof.
  split.
  - intros H. unfold get_bearer_token.
    destruct H as [-> | ->]; cbn; [eauto|]. rewrite orb_true_r. eauto.
  - intros H1 H2. unfold get_bearer_token. rewrite H1, H2. cbn [negb orb].
    split.
    + intros H. destruct (request_json_failed post H) as (msg & ->). reflexivity.
    + intros token. split.
      * destruct (request_failed_cases post) as [[_ (msg & ->)]|[Hok (c & body & -> & ->)]];
          [discriminate|].
        cbn [bind]. destruct body; try discriminate.
        destruct (Json.dict_get "access_token" d) as [t|] eqn:E; [|discriminate].
        cbn. intros [= ->]. eauto.
      * intros (c & d & -> & Hok & E). rewrite (request_json_ok _ _ Hok).
        cbn [bind]. now rewrite E.
Qed.

Lemma get_bearer_token_result_witness :
  get_bearer_token "id-1" "s3cret" Sample.token_ok = Ok (Some (JStr "eyJhbGciOi")) /\
  get_bearer_token "id-1" "s3cret" Sample.server_error = Ok None /\
  exists msg, get_bearer_token "id-1" EmptyString Sample.token_ok = Raise (ValueError msg).
Proof.
  split; [|split].
  - apply (proj2 (get_bearer_token_result "id-1" "s3cret" Sample.token_ok) eq_refl eq_refl).
    exists 200%Z, [("access_token", JStr "eyJhbGciOi")]. repeat split.
  - apply (proj2 (get_bearer_token_result "id-1" "s3cret" Sample.server_error)
             eq_refl eq_refl).
    reflexivity.
  - apply (proj1 (get_bearer_token_result "id-1" EmptyString Sample.token_ok)).
    right. reflexivity.
Defined.

(** X8. On a successful response whose catalog is a list of objects,
    [check_lookup_exists] answers whether one of them has the file name as
    its [id]; the match is on the whole name. *)
Theorem check_lookup_exists_answer (fn : string) (c : Z)
    (d : list (string * json)) (l : list json) :
  request_failed (HttpResponse c (JDict d)) = false ->
  Json.dict_get "items" d = Some (JList l) ->
  forallb is_dict l = true ->
  check_lookup_exists fn (HttpResponse c (JDict d)) = Ok (existsb (item_has_id fn) l).
Proof.
  intros Hok E Hl. unfold check_lookup_exists.
  rewrite (request_json_ok _ _ Hok). cbn [bind].
  rewrite (dict_get_nonempty _ _ _ E). cbn [negb]. rewrite E.
  destruct l as [|item l]; [reflexivity|].
  cbn [Json.truthy negb].
  assert (Hany : any_id_is fn (item :: l) = Ok (existsb (item_has_id fn) (item :: l))).
  { clear E. induction (item :: l) as [|x xs IH]; [reflexivity|].
    cbn [forallb] in Hl. apply andb_true_iff in Hl as [Hx Hxs].
    destruct x; try discriminate. cbn [any_id_is existsb item_has_id].
    destruct (Json.eq_str (Json.dict_get "id" d0) fn); [reflexivity|].
    now apply IH. }
  now rewrite Hany.
Qed.

Lemma check_lookup_exists_answer_witness :
  check_lookup_exists "users.csv" Sample.catalog_users = Ok true /\
  check_lookup_exists "users" Sample.catalog_users = Ok false.
Proof.
  split.
  - apply (check_lookup_exists_answer "users.csv" 200
             [("items", JList [JDict [("id", JStr "other.csv")];
                               JDict [("id", JStr "users.csv")]])]
             [JDict [("id", JStr "other.csv")]; JDict [("id", JStr "users.csv")]]);
      reflexivity.
  - apply (check_lookup_exists_answer "users" 200
             [("items", JList [JDict [("id", JStr "other.csv")];
                               JDict [("id", JStr "users.csv")]])]
             [JDict [("id", JStr "other.csv")]; JDict [("id", JStr "users.csv")]]);
      reflexivity.
Defined.

(** X9. [commit_changes] returns a commit id exactly when the request
    succeeds and the first item of the response is an object with a truthy
    [commit]: that value.  A failed request is answered by [None]. *)
Theorem commit_changes_result (post : http_outcome) :
  (request_failed post = true -> commit_changes post = Ok None) /\
  (forall commit_id,
     commit_changes post = Ok (Some commit_id) <->
     exists c d item rest,
       post = HttpResponse c (JDict d) /\ request_failed post = false /\
       Json.dict_get "items" d = Some (JList (JDict item :: rest)) /\
       Json.dict_get "commit" item = Some commit_id /\
       Json.truthy commit_id = true).
Proof.
  split.
  - intros H. unfold commit_changes.
    destruct (request_json_failed post H) as (msg & ->). reflexivity.
  - intros commit_id. unfold commit_changes. split.
    + destruct (request_failed_cases post) as [[_ (msg & ->)]|[Hok (c & body & -> & ->)]];
        [discriminate|].
      cbn [bind]. destruct body; try discriminate.
      destruct (Json.dict_get "items" d) as [items|] eqn:E; [|discriminate].
      destruct items as [| | | |str|l|d']; try discriminate.
      { destruct str; discriminate. }
      destruct l as [|first rest]; [discriminate|].
      destruct first as [| | | | | |item]; try discriminate.
      destruct (Json.dict_get "commit" item) as [v|] eqn:Ec; [|discriminate].
      destruct (Json.truthy v) eqn:Ht; [|discriminate].
      cbn. intros [= ->]. exists c, d, item, rest. auto.
    + intros (c & d & item & rest & -> & Hok & E & Ec & Ht).
      rewrite (request_json_ok _ _ Hok). cbn [bind]. now rewrite E, Ec, Ht.
Qed.

Lemma commit_changes_result_witness :
  commit_changes Sample.commit_ok = Ok (Some (JStr "4f2a9c1")) /\
  commit_changes Sample.timeout = Ok None.
Proof.
  split.
  - apply (proj2 (commit_changes_result Sample.commit_ok)).
    exists 200%Z, [("items", JList [JDict [("commit", JStr "4f2a9c1")]])],
      [("commit", JStr "4f2a9c1")], []. repeat split.
  - apply (proj1 (commit_changes_result Sample.timeout)). reflexivity.
Defined.

End ApiCalls.

Section UploadPrefix.
Import PyStr ActiveDirectory.

(** The first part of a split is a prefix of the text. *)
Lemma split_first_prefix (c : ascii) (s : string) :
  exists base rest, split c s = base :: rest /\ String.prefix base s = true.
Proof.
  induction s as [|d s (base & rest & E & Hp)]; [exists EmptyString, []; auto|].
  cbn [split]. destruct (Ascii.eqb d c).
  - exists EmptyString, (split c s). split; [reflexivity | apply prefix_nil].
  - rewrite E. exists (String d base), rest. split; [reflexivity|].
    cbn. destruct (ascii_dec d d); [exact Hp | congruence].
Qed.

Lemma base_name_prefix (fn : string) : startswith fn (base_name fn) = true.
Proof.
  unfold startswith, base_name.
  destruct (split_first_prefix dot fn) as (base & rest & -> & Hp). exact Hp.
Qed.

Lemma base_name_leading_dot (rest : string) : base_name (String dot rest) = EmptyString.
Proof. reflexivity. Qed.

(** X10. The check of the temporary file name is a prefix test on the part
    of the lookup file name before its first dot, and nothing more: any name
    that continues that part is accepted, the lookup file name itself
    included, and for a lookup file name that starts with a dot, whose base
    name is empty, every name that is not empty is. *)
Theorem upload_lookup_file_prefix_only (fn t : string) (c : Z)
    (d : list (string * json)) :
  request_failed (HttpResponse c (JDict d)) = false ->
  Json.dict_get "filename" d = Some (JStr t) ->
  t <> EmptyString ->
  (exists suffix, t = base_name fn ++ suffix) \/ t = fn \/
  (exists rest, fn = String dot rest) ->
  upload_lookup_file fn (HttpResponse c (JDict d)) = Ok (Some t).
Proof.
  intros Hok E Ht H. apply upload_lookup_file_some; auto.
  destruct H as [(suffix & ->)|[->|(rest & ->)]].
  - apply prefix_append.
  - apply base_name_prefix.
  - rewrite base_name_leading_dot. apply prefix_nil.
Qed.

Lemma upload_lookup_file_prefix_only_witness :
  upload_lookup_file "users.csv"
    (HttpResponse 200 (JDict [("filename", JStr "users_of_another_lookup.csv")]))
  = Ok (Some "users_of_another_lookup.csv") /\
  upload_lookup_file ".users.csv" Sample.uploaded_other_prefix
  = Ok (Some "tmp.abc123.csv").
Proof.
  split.
  - apply (upload_lookup_file_prefix_only "users.csv" "users_of_another_lookup.csv" 200
             [("filename", JStr "users_of_another_lookup.csv")]);
      [reflexivity | reflexivity | discriminate |].
    left. exists "_of_another_lookup.csv". reflexivity.
  - apply (upload_lookup_file_prefix_only ".users.csv" "tmp.abc123.csv" 200
             [("filename", JStr "tmp.abc123.csv")]);
      [reflexivity | reflexivity | discriminate |].
    right. right. exists "users.csv". reflexivity.
Defined.

End UploadPrefix.

Section ConfigurationSources.
Import PyStr ActiveDirectory.

(** X11. A configuration file with no [cribl] section changes nothing,
    whatever its other sections hold, the [DEFAULT] section included: the
    defaults are set as options of the [cribl] section itself, so they come
    before those of [DEFAULT], and the ten settings are those of a run with no
    file at all. *)
Theorem override_without_cribl_section (args : Args) (parsed : ini) :
  parsed !! "cribl" = None ->
  override args (load_config (Some parsed)) = override args (load_config None) /\
  forall f, load_config (Some parsed) !! field_key f = Some (field_default f).
Proof.
  intros H. split.
  - apply override_ext. intros f. rewrite !arg_or_field.
    unfold config_value, file_value. rewrite H.
    destruct (field_arg f args) as [[|c v]|]; try reflexivity;
      now rewrite !before_get_plain by apply field_default_plain.
  - intros f. rewrite load_config_lookup. unfold config_value, file_value.
    now rewrite H.
Qed.

Lemma override_without_cribl_section_witness :
  load_config (Some ({[ "DEFAULT" := {[ "client_id" := "from-default" ]} ]} : ini))
    !! "client_id" = Some EmptyString.
Proof.
  refine (proj2 (override_without_cribl_section Sample.no_args
                   ({[ "DEFAULT" := {[ "client_id" := "from-default" ]} ]} : ini) _)
            ClientId).
  vm_compute. reflexivity.
Defined.

(** X12. With all ten values given on the command line and not empty the
    configuration is never read: step 2 succeeds with the command-line values
    on every configuration, one with none of the options included, where a
    read would raise [KeyError]. *)
Theorem override_all_from_command_line (args : Args) (config : gmap string string) :
  (forall f, exists v, field_arg f args = Some v /\ v <> EmptyString) ->
  exists s,
    override args config = Ok s /\
    forall f, field_arg f args = Some (field_value f s).
Proof.
  intros H.
  assert (Hfield : forall f, exists v,
            field_arg f args = Some v /\
            arg_or (field_arg f args) config (field_key f) = Ok v).
  { intros f. destruct (H f) as (v & E & Hv). exists v. split; [exact E|].
    rewrite E. unfold arg_or. apply truthy_nonempty in Hv. now rewrite Hv. }
  destruct (Hfield ClientId) as (v1 & A1 & H1).
  destruct (Hfield ClientSecret) as (v2 & A2 & H2).
  destruct (Hfield OrganizationId) as (v3 & A3 & H3).
  destruct (Hfield LookupFilename) as (v4 & A4 & H4).
  destruct (Hfield TargetGroup) as (v5 & A5 & H5).
  destruct (Hfield AdServer) as (v6 & A6 & H6).
  destruct (Hfield AdUser) as (v7 & A7 & H7).
  destruct (Hfield AdPassword) as (v8 & A8 & H8).
  destruct (Hfield AdDomain) as (v9 & A9 & H9).
  destruct (Hfield AdSearchDomain) as (v10 & A10 & H10).
  cbn [field_arg field_key] in *.
  unfold override. rewrite H1, H2, H3, H4, H5, H6, H7, H8, H9, H10. cbn [bind].
  eexists. split; [reflexivity|].
  intros f. destruct f; cbn [field_arg field_value client_id client_secret
    organization_id lookup_filename target_worker_group ad_server ad_user
    ad_password ad_domain ad_search_domain]; assumption.
Qed.

Lemma override_all_from_command_line_witness :
  exists s,
    override Sample.all_args ∅ = Ok s /\
    forall f, field_arg f Sample.all_args = Some (field_value f s).
Proof.
  apply (override_all_from_command_line Sample.all_args ∅).
  intros f. destruct f; eexists; (split; [reflexivity | discriminate]).
Defined.

End ConfigurationSources.

Section MainRun.
Import PyStr ActiveDirectory.

Lemma request_succeeds_eq (o : http_outcome) :
  request_succeeds o = Ok (negb (request_failed o)).
Proof.
  unfold request_succeeds.
  destruct (request_failed_cases o) as [[-> (msg & ->)]|[-> (c & body & -> & ->)]];
    reflexivity.
Qed.

Lemma request_succeeds_true (o : http_outcome) :
  request_succeeds o = Ok true -> request_failed o = false.
Proof.
  rewrite request_succeeds_eq. intros [= H]. now apply negb_true_iff.
Qed.

Lemma get_bearer_token_some_inv (id secret : string) (post : http_outcome) (token : json) :
  get_bearer_token id secret post = Ok (Some token) ->
  truthy id = true /\ truthy secret = true /\ request_failed post = false.
Proof.
  unfold get_bearer_token.
  destruct (truthy id); cbn [negb orb]; [|discriminate].
  destruct (truthy secret); cbn [negb]; [|discriminate].
  destruct (request_failed_cases post) as [[_ (msg & ->)]|[Hok _]]; [discriminate|].
  auto.
Qed.

Lemma get_bearer_token_none (id secret : string) (post : http_outcome) :
  truthy id = false \/ truthy secret = false \/ request_failed post = true ->
  forall token, get_bearer_token id secret post <> Ok (Some token).
Proof.
  intros H token E. apply get_bearer_token_some_inv in E as (H1 & H2 & H3).
  destruct H as [H|[H|H]]; congruence.
Qed.

Lemma commit_changes_some_inv (post : http_outcome) (commit_id : json) :
  commit_changes post = Ok (Some commit_id) -> request_failed post = false.
Proof.
  unfold commit_changes.
  destruct (request_failed_cases post) as [[_ (msg & ->)]|[Hok _]]; [discriminate|].
  auto.
Qed.

(** A missing server, password or search domain, or a user that
    [parse_ad_user] refuses, ends [query_ad_users] with exit status 1. *)
Lemma query_ad_users_refuses (d : directory) (server user pw dom sdom out : string) :
  truthy server = false \/ truthy pw = false \/
  truthy (or_else sdom dom) = false \/
  (exists msg, parse_ad_user user dom = Raise (ValueError msg)) ->
  exists printed, query_ad_users d server user pw dom sdom out = QueryExit1 printed.
Proof.
  intros H. unfold query_ad_users, query_ad_users_try.
  destruct (parse_ad_user_total user dom) as [(n & u & E)|(msg & E)].
  2:{ rewrite E. cbn [bind]. eauto. }
  rewrite E. cbn [bind].
  destruct (truthy (or_else sdom dom)) eqn:Hd; cbn [negb]; [|eauto].
  destruct (truthy server) eqn:Hs; cbn [negb]; [|eauto].
  destruct (truthy pw) eqn:Hp; cbn [negb]; [|eauto].
  destruct H as [H|[H|[H|(msg & H)]]]; congruence.
Qed.

(** Every way through a run, one case at a time. *)
Ltac main_cases :=
  repeat match goal with
         | |- context [match ?x with _ => _ end] => destruct x
         end.



(** X14. A run of [main()] ends with status 0 in two cases only.  Either
    the help text was asked for, and argparse left before any step.  Or the
    run went through all seven steps, with one of update and create, and
    every request it made succeeded: token, upload, the update or the
    creation, commit and deploy; the one file it wrote is then the CSV at the
    lookup file name, header first. *)
Theorem main_success_run (cmdline : command_line) (w : world) :
  status (main cmdline w) = 0%Z ->
  (cmdline = HelpRequested /\
   calls (main cmdline w) = [] /\
   files (main cmdline w) = [])
  \/
  exists args s entries,
    cmdline = Parsed args /\
    override args (load_config (config_file w)) = Ok s /\
    files (main cmdline w)
    = [ {| csv_path := lookup_filename s;
           csv_rows := header :: map entry_row entries |} ] /\
    (calls (main cmdline w) = pipeline CallUpdateLookup /\
     request_failed (update_patch w) = false
     \/
     calls (main cmdline w) = pipeline CallCreateLookup /\
     request_failed (create_post w) = false) /\
    request_failed (token_post w) = false /\
    request_failed (upload_put w) = false /\
    request_failed (commit_post w) = false /\
    request_failed (deploy_patch w) = false.
Proof.
  destruct cmdline as [args| |]; cbn [main];
    [|intros _; left; auto | discriminate].
  intros Hstatus. right. exists args. revert Hstatus. cbn [main]. unfold main_body.
  destruct (override args (load_config (config_file w))) as [s|e]; [|discriminate].
  destruct (query_ad_users _ _ _ _ _ _ _) as [written printed|printed] eqn:Hq;
    [|discriminate].
  apply query_ad_users_exported_inv in Hq as (u & b & entries & _ & ->).
  destruct (get_bearer_token _ _ _) as [[token|]|e] eqn:Ht; [|discriminate..].
  apply get_bearer_token_some_inv in Ht as (_ & _ & Ht).
  destruct (negb (Json.truthy token) || negb (sliceable token)); [discriminate|].
  destruct (upload_lookup_file _ _) as [[temp|]|e] eqn:Hu; [|discriminate..].
  apply upload_lookup_file_some_inv in Hu as (c & d & _ & Hu & _).
  unfold main_create_or_update, main_commit_deploy.
  destruct (check_lookup_exists _ _) as [[|]|e]; [| |discriminate].
  - destruct (update_lookup _) as [[|]|e] eqn:Hw; [|discriminate..].
    apply request_succeeds_true in Hw.
    destruct (commit_changes _) as [[commit_id|]|e] eqn:Hc; [|discriminate..].
    apply commit_changes_some_inv in Hc.
    destruct (deploy_changes _) as [[|]|e] eqn:Hd; [|discriminate..].
    apply request_succeeds_true in Hd.
    intros _. exists s, entries. cbn. auto 10.
  - destruct (create_lookup _) as [[|]|e] eqn:Hw; [|discriminate..].
    apply request_succeeds_true in Hw.
    destruct (commit_changes _) as [[commit_id|]|e] eqn:Hc; [|discriminate..].
    apply commit_changes_some_inv in Hc.
    destruct (deploy_changes _) as [[|]|e] eqn:Hd; [|discriminate..].
    apply request_succeeds_true in Hd.
    intros _. exists s, entries. cbn. auto 10.
Qed.

Lemma main_success_run_witness :
  calls (main (Parsed Sample.no_args)
           (Sample.world_with [Sample.alice] Sample.uploaded Sample.catalog_users))
  = pipeline CallUpdateLookup /\
  calls (main HelpRequested
           (Sample.world_with [Sample.alice] Sample.uploaded Sample.catalog_users))
  = [].
Proof.
  split.
  - destruct (main_success_run (Parsed Sample.no_args)
                (Sample.world_with [Sample.alice] Sample.uploaded Sample.catalog_users))
      as [(H & _)|(args & s & entries & _ & _ & _ & [(H & _)|(H & _)] & _)].
    + vm_compute. reflexivity.
    + discriminate H.
    + exact H.
    + vm_compute in H. discriminate H.
  - destruct (main_success_run HelpRequested
                (Sample.world_with [Sample.alice] Sample.uploaded Sample.catalog_users))
      as [(_ & H & _)|(args & s & entries & H & _)].
    + reflexivity.
    + exact H.
    + discriminate H.
Defined.

(** X15. A configuration error of the directory query stops the run at its
    first step: with no server, no password, no search domain, or a user
    that [parse_ad_user] refuses, [main] exits with status 1 having called
    [query_ad_users] only; no file is written and no request is sent. *)
Theorem main_stops_at_configuration_error (args : Args) (w : world) (s : Settings) :
  override args (load_config (config_file w)) = Ok s ->
  truthy (ad_server s) = false \/ truthy (ad_password s) = false \/
  truthy (or_else (ad_search_domain s) (ad_domain s)) = false \/
  (exists msg, parse_ad_user (ad_user s) (ad_domain s) = Raise (ValueError msg)) ->
  main (Parsed args) w = {| calls := [CallQueryAdUsers]; files := []; status := 1 |}.
Proof.
  intros Hs H. cbn [main]. unfold main_body. rewrite Hs.
  destruct (query_ad_users_refuses (dir w) (ad_server s) (ad_user s) (ad_password s)
              (ad_domain s) (ad_search_domain s) (lookup_filename s) H) as (printed & ->).
  reflexivity.
Qed.

(** With no flag and no configuration file every setting is empty. *)
Lemma main_stops_at_configuration_error_witness :
  main (Parsed Sample.no_args) Sample.world_no_file
  = {| calls := [CallQueryAdUsers]; files := []; status := 1 |}.
Proof.
  refine (main_stops_at_configuration_error Sample.no_args Sample.world_no_file
            {| client_id := EmptyString;
               client_secret := EmptyString;
               organization_id := EmptyString;
               lookup_filename := EmptyString;
               target_worker_group := "default";
               ad_server := EmptyString;
               ad_user := EmptyString;
               ad_password := EmptyString;
               ad_domain := EmptyString;
               ad_search_domain := EmptyString |} _ _).
  - vm_compute. reflexivity.
  - left. reflexivity.
Defined.

(** X16. The credentials of the configuration API are looked at only after
    the directory has been queried and the CSV file written: with no client
    id or no client secret, as with a token request that fails, the run exits
    with status 1 after [get_bearer_token], and the file stays behind. *)
Theorem main_token_failure_after_export (args : Args) (w : world) (s : Settings)
    (written : list csv_file) (printed : string) :
  override args (load_config (config_file w)) = Ok s ->
  query_ad_users (dir w) (ad_server s) (ad_user s) (ad_password s) (ad_domain s)
    (ad_search_domain s) (lookup_filename s) = Exported written printed ->
  truthy (client_id s) = false \/ truthy (client_secret s) = false \/
  request_failed (token_post w) = true ->
  main (Parsed args) w
  = {| calls := [CallQueryAdUsers; CallGetBearerToken]; files := written; status := 1 |}
  /\ exists rows, written = [ {| csv_path := lookup_filename s; csv_rows := header :: rows |} ].
Proof.
  intros Hs Hq H. split.
  - cbn [main]. unfold main_body. rewrite Hs, Hq.
    pose proof (get_bearer_token_none _ _ _ H) as Hnone.
    destruct (get_bearer_token _ _ _) as [[token|]|e]; [|reflexivity..].
    now destruct (Hnone token).
  - apply query_ad_users_exported_inv in Hq as (u & b & entries & _ & ->). eauto.
Qed.

Lemma main_token_failure_after_export_witness :
  main (Parsed Sample.no_args) Sample.world_token_timeout
  = {| calls := [CallQueryAdUsers; CallGetBearerToken];
       files := [ {| csv_path := "users.csv";
                     csv_rows := [header; entry_row Sample.alice] |} ];
       status := 1 |}.
Proof.
  refine (proj1 (main_token_failure_after_export Sample.no_args
                   Sample.world_token_timeout Sample.settings_ini _
                   "AD user data exported to users.csv" _ _ _)).
  - vm_compute. reflexivity.
  - vm_compute. reflexivity.
  - right. right. reflexivity.
Defined.

(** X25. When the update or the creation of the lookup fails, the run
    exits with status 1 right after it: the changes are neither committed nor
    deployed.  Which of the two was tried is the answer of the existence
    check. *)
Theorem main_write_failure_stops (w : world) (s : Settings) (made : list call)
    (written : list csv_file) (found : bool) :
  check_lookup_exists (lookup_filename s) (catalog_get w) = Ok found ->
  request_failed (if found then update_patch w else create_post w) = true ->
  main_create_or_update w s made written
  = {| calls := (made ++ [ CallCheckLookupExists;
                           if found then CallUpdateLookup else CallCreateLookup ])%list;
       files := written;
       status := 1 |}.
Proof.
  intros Hcheck Hfail. unfold main_create_or_update. rewrite Hcheck.
  destruct found; unfold update_lookup, create_lookup;
    rewrite request_succeeds_eq, Hfail; cbn [negb]; unfold exit1;
    now rewrite <- app_assoc.
Qed.

Lemma main_write_failure_stops_witness :
  main (Parsed Sample.no_args) Sample.world_update_fails
  = {| calls := [ CallQueryAdUsers; CallGetBearerToken; CallUploadLookupFile;
                  CallCheckLookupExists; CallUpdateLookup ];
       files := [ {| csv_path := "users.csv";
                     csv_rows := [header; entry_row Sample.alice] |} ];
       status := 1 |}.
Proof.
  transitivity
    (main_create_or_update Sample.world_update_fails Sample.settings_ini
       [CallQueryAdUsers; CallGetBearerToken; CallUploadLookupFile]
       [ {| csv_path := "users.csv"; csv_rows := [header; entry_row Sample.alice] |} ]).
  - vm_compute. reflexivity.
  - exact (main_write_failure_stops Sample.world_update_fails Sample.settings_ini
             [CallQueryAdUsers; CallGetBearerToken; CallUploadLookupFile]
             [ {| csv_path := "users.csv";
                  csv_rows := [header; entry_row Sample.alice] |} ]
             true eq_refl eq_refl).
Defined.

(** X26. A token is used only if it is a string or a list that is not
    empty.  With such a token the run goes on to the upload.  With any other
    the run ends there with status 1, the upload not called and the CSV file
    left behind: an empty token makes [main] exit, and on a number, a
    boolean or an object the slice [token[:10]] of the progress line
    raises. *)
Theorem main_token_shape (args : Args) (w : world) (s : Settings)
    (written : list csv_file) (printed : string) (token : json) :
  override args (load_config (config_file w)) = Ok s ->
  query_ad_users (dir w) (ad_server s) (ad_user s) (ad_password s) (ad_domain s)
    (ad_search_domain s) (lookup_filename s) = Exported written printed ->
  get_bearer_token (client_id s) (client_secret s) (token_post w) = Ok (Some token) ->
  ((exists text, token = JStr text /\ text <> EmptyString) \/
   (exists l, token = JList l /\ l <> []) ->
   exists rest,
     calls (main (Parsed args) w)
     = ([CallQueryAdUsers; CallGetBearerToken; CallUploadLookupFile] ++ rest)%list /\
     files (main (Parsed args) w) = written) /\
  (~ ((exists text, token = JStr text /\ text <> EmptyString) \/
      (exists l, token = JList l /\ l <> [])) ->
   main (Parsed args) w
   = {| calls := [CallQueryAdUsers; CallGetBearerToken];
        files := written;
        status := 1 |}).
Proof.
  intros Hs Hq Ht. cbn [main]. unfold main_body. rewrite Hs, Hq, Ht.
  assert (Hyes : exists rest,
             calls match upload_lookup_file (lookup_filename s) (upload_put w) with
                   | Ok (Some _) =>
                       main_create_or_update w s
                         (([CallQueryAdUsers] ++ [CallGetBearerToken])
                          ++ [CallUploadLookupFile]) written
                   | _ => exit1 (([CallQueryAdUsers] ++ [CallGetBearerToken])
                                 ++ [CallUploadLookupFile]) written
                   end
             = ([CallQueryAdUsers; CallGetBearerToken; CallUploadLookupFile]
                ++ rest)%list /\
             files match upload_lookup_file (lookup_filename s) (upload_put w) with
                   | Ok (Some _) =>
                       main_create_or_update w s
                         (([CallQueryAdUsers] ++ [CallGetBearerToken])
                          ++ [CallUploadLookupFile]) written
                   | _ => exit1 (([CallQueryAdUsers] ++ [CallGetBearerToken])
                                 ++ [CallUploadLookupFile]) written
                   end
             = written).
  { unfold main_create_or_update, main_commit_deploy, exit1.
    main_cases; cbn [calls files app]; eexists; (split; reflexivity). }
  destruct token as [|b|n|f|text|l|d]; cbn [Json.truthy sliceable negb orb].
  1-4,7: rewrite ?orb_true_r;
         (split; [intros [(text & E & _)|(l & E & _)]; discriminate | reflexivity]).
  - destruct text as [|c text]; cbn [truthy is_empty negb orb].
    + split; [|reflexivity].
      intros [(text & [= <-] & H)|(l & E & _)]; [congruence | discriminate].
    + split; [intros _; exact Hyes|]. intros H. destruct H. left. eexists.
      split; [reflexivity | discriminate].
  - destruct l as [|item l]; cbn [negb orb].
    + split; [|reflexivity].
      intros [(text & E & _)|(l & [= <-] & H)]; [discriminate | congruence].
    + split; [intros _; exact Hyes|]. intros H. destruct H. right. eexists.
      split; [reflexivity | discriminate].
Qed.

Lemma main_token_shape_witness :
  main (Parsed Sample.no_args) Sample.world_token_number
  = {| calls := [CallQueryAdUsers; CallGetBearerToken];
       files := [ {| csv_path := "users.csv"; csv_rows := [header] |} ];
       status := 1 |}.
Proof.
  refine (proj2 (main_token_shape Sample.no_args Sample.world_token_number
                   Sample.settings_ini
                   [ {| csv_path := "users.csv"; csv_rows := [header] |} ]
                   "AD user data exported to users.csv" (JInt 12345) _ _ _) _).
  - vm_compute. reflexivity.
  - vm_compute. reflexivity.
  - vm_compute. reflexivity.
  - intros [(text & E & _)|(l & E & _)]; discriminate.
Defined.

End MainRun.

(** * More of the search-to-table script *)

Section PollTrace.
Import PyStr PowerBI.

Variable response_of : nat -> result json.

Lemma poll_first_terminal (k n start : nat) (job_status : json) :
  (k < n)%nat ->
  job_status_at response_of (start + k) = Ok job_status ->
  is_terminal job_status = true ->
  (forall j, (j < k)%nat ->
     exists s, job_status_at response_of (start + j) = Ok s /\ is_terminal s = false) ->
  poll response_of (seq start n)
  = ((flat_map (fun attempt => [GetStatus attempt; Sleep 2]) (seq start k)
      ++ [GetStatus (start + k)])%list,
     if is_done job_status then Break
     else Raised (Exception "Search job failed")).
Proof.
  revert n start. induction k as [|k IH]; intros n start Hk Hs Ht Hbefore.
  - destruct n; [lia|]. cbn [seq poll flat_map app]. rewrite Nat.add_0_r in *.
    rewrite Hs. unfold is_terminal in Ht.
    destruct (is_done job_status); [reflexivity|].
    cbn [orb] in Ht. rewrite Ht. reflexivity.
  - destruct n; [lia|]. cbn [seq poll].
    destruct (Hbefore 0%nat ltac:(lia)) as (s0 & Hs0 & H0).
    rewrite Nat.add_0_r in Hs0. rewrite Hs0.
    unfold is_terminal in H0. apply orb_false_iff in H0 as [Hd Hf]. rewrite Hd, Hf.
    replace (start + S k)%nat with (S start + k)%nat in * by lia.
    rewrite (IH n (S start)); [reflexivity | lia | exact Hs | exact Ht |].
    intros j Hj. replace (S start + j)%nat with (start + S j)%nat by lia.
    apply Hbefore. lia.
Qed.

Lemma poll_none_terminal (n start : nat) :
  (forall j, (j < n)%nat ->
     exists s, job_status_at response_of (start + j) = Ok s /\ is_terminal s = false) ->
  poll response_of (seq start n)
  = (flat_map (fun attempt => [GetStatus attempt; Sleep 2]) (seq start n), Exhausted).
Proof.
  revert start. induction n as [|n IH]; intros start H; [reflexivity|].
  cbn [seq poll flat_map app].
  destruct (H 0%nat ltac:(lia)) as (s0 & Hs0 & H0).
  rewrite Nat.add_0_r in Hs0. rewrite Hs0.
  unfold is_terminal in H0. apply orb_false_iff in H0 as [Hd Hf]. rewrite Hd, Hf.
  rewrite (IH (S start)); [reflexivity|].
  intros j Hj. replace (S start + j)%nat with (start + S j)%nat by lia.
  apply H. lia.
Qed.

Lemma total_sleep_rounds (k start : nat) (tail : list event) :
  total_sleep (flat_map (fun attempt => [GetStatus attempt; Sleep 2]) (seq start k)
               ++ tail)
  = (2 * Z.of_nat k + total_sleep tail)%Z.
Proof.
  revert start. induction k as [|k IH]; intros start; [reflexivity|].
  cbn [seq flat_map app]. unfold total_sleep in *. cbn [fold_right].
  rewrite IH. lia.
Qed.

Lemma checks_rounds (k start : nat) (tail : list event) :
  checks (flat_map (fun attempt => [GetStatus attempt; Sleep 2]) (seq start k) ++ tail)
  = (k + checks tail)%nat.
Proof.
  revert start. induction k as [|k IH]; intros start; [reflexivity|].
  cbn [seq flat_map app]. rewrite checks_cons_status, checks_cons_sleep, IH. lia.
Qed.

(** X17. The loop stops at the first status that is done, completed or
    failed.  When that is the status of attempt [k], below 60, every earlier
    request having given another status, the script has sent [k + 1] status
    requests and waited [2 * k] seconds; on done or completed it requests the
    results next, on failed it raises and neither requests nor parses them.
    Later statuses are never asked for. *)
Theorem poll_loop_first_terminal (k : nat) (job_status : json) :
  (k < max_attempts)%nat ->
  job_status_at response_of k = Ok job_status ->
  is_terminal job_status = true ->
  (forall j, (j < k)%nat ->
     exists s, job_status_at response_of j = Ok s /\ is_terminal s = false) ->
  poll_loop response_of
  = ((rounds k ++ [GetStatus k])%list,
     if is_done job_status then Break
     else Raised (Exception "Search job failed")) /\
  checks (fst (poll_loop response_of)) = S k /\
  total_sleep (fst (poll_loop response_of)) = (2 * Z.of_nat k)%Z /\
  forall json_loads results_response,
    run_from_poll json_loads response_of results_response
    = if is_done job_status
      then ((rounds k ++ [GetStatus k; GetResults])%list,
            bind results_response (parse_ndjson json_loads))
      else ((rounds k ++ [GetStatus k])%list, Raise (Exception "Search job failed")).
Proof.
  intros Hk Hs Ht Hbefore.
  assert (E : poll_loop response_of
              = ((rounds k ++ [GetStatus k])%list,
                 if is_done job_status then Break
                 else Raised (Exception "Search job failed"))).
  { unfold poll_loop.
    now rewrite (poll_first_terminal k max_attempts 0 job_status Hk Hs Ht Hbefore). }
  split; [exact E|]. rewrite E. cbn [fst]. unfold rounds.
  split; [|split].
  - rewrite checks_rounds. cbn. lia.
  - rewrite total_sleep_rounds. cbn. lia.
  - intros json_loads results_response. unfold run_from_poll. rewrite E. unfold rounds.
    destruct (is_done job_status); [|reflexivity].
    now rewrite <- app_assoc.
Qed.

(** X18. When each of the 60 status requests gives a status and none is
    done, completed or failed, every attempt is followed by its wait, the
    last one too: the script has waited 120 seconds when it goes on to
    request the results. *)
Theorem poll_loop_never_terminal :
  (forall j, (j < max_attempts)%nat ->
     exists s, job_status_at response_of j = Ok s /\ is_terminal s = false) ->
  poll_loop response_of = (rounds max_attempts, Exhausted) /\
  checks (rounds max_attempts) = 60%nat /\
  total_sleep (rounds max_attempts) = 120%Z /\
  forall json_loads results_response,
    run_from_poll json_loads response_of results_response
    = ((rounds max_attempts ++ [GetResults])%list,
       bind results_response (parse_ndjson json_loads)).
Proof.
  intros H.
  assert (E : poll_loop response_of = (rounds max_attempts, Exhausted)).
  { unfold poll_loop. now rewrite (poll_none_terminal max_attempts 0 H). }
  split; [exact E|]. split; [reflexivity|]. split; [reflexivity|].
  intros json_loads results_response. unfold run_from_poll. now rewrite E.
Qed.

(** X19. Whatever the status requests come to, the loop waits 120 seconds
    at most, and the whole 120 exactly when the attempts run out; when it is
    left by [break] or by an exception, the waits are one fewer than the
    status requests. *)
Theorem poll_loop_total_sleep :
  let trace := fst (poll_loop response_of) in
  let how := snd (poll_loop response_of) in
  (0 <= total_sleep trace <= 120)%Z /\
  (total_sleep trace = 120%Z <-> how = Exhausted) /\
  (how <> Exhausted -> (total_sleep trace = 2 * (Z.of_nat (checks trace) - 1))%Z).
Proof.
  cbv zeta. unfold poll_loop.
  destruct (poll_shape response_of 0 max_attempts) as (k & Hk & Htrace & Hx & Hnx).
  rewrite Htrace, total_sleep_rounds, checks_rounds.
  unfold max_attempts in *.
  destruct (snd (poll response_of (seq 0 60))) eqn:Hhow; cbn [total_sleep fold_right checks
    List.filter is_status_check length].
  - assert (k < 60)%nat by (apply Hnx; discriminate).
    split; [lia|]. split; [split; [lia | discriminate]|]. intros _. lia.
  - assert (k < 60)%nat by (apply Hnx; discriminate).
    split; [lia|]. split; [split; [lia | discriminate]|]. intros _. lia.
  - assert (k = 60)%nat by (now apply Hx). subst k.
    split; [lia|]. split; [split; [reflexivity | lia]|]. congruence.
Qed.

End PollTrace.

Lemma poll_loop_total_sleep_witness :
  PowerBI.total_sleep
    (fst (PowerBI.poll_loop
            (fun attempt =>
               Ok (Sample.status_body
                     (if (attempt <? 2)%nat then "running" else "done")))))
  = 4%Z.
Proof.
  rewrite (proj2 (proj2 (poll_loop_total_sleep
                           (fun attempt =>
                              Ok (Sample.status_body
                                    (if (attempt <? 2)%nat then "running"
                                     else "done")))))).
  - reflexivity.
  - discriminate.
Defined.

Lemma poll_loop_first_terminal_witness :
  PowerBI.poll_loop
    (fun attempt =>
       Ok (Sample.status_body (if (attempt <? 2)%nat then "running" else "failed")))
  = ((PowerBI.rounds 2 ++ [PowerBI.GetStatus 2])%list,
     PowerBI.Raised (Exception "Search job failed")).
Proof.
  refine (proj1 (poll_loop_first_terminal
                   (fun attempt =>
                      Ok (Sample.status_body
                            (if (attempt <? 2)%nat then "running" else "failed")))
                   2 (JStr "failed") _ _ _ _)).
  - unfold PowerBI.max_attempts. lia.
  - reflexivity.
  - reflexivity.
  - intros j Hj. exists (JStr "running").
    destruct j as [|[|j]]; [split; reflexivity | split; reflexivity | lia].
Defined.

Lemma poll_loop_never_terminal_witness :
  PowerBI.poll_loop (fun _ => Ok (Sample.status_body "queued"))
  = (PowerBI.rounds 60, PowerBI.Exhausted).
Proof.
  refine (proj1 (poll_loop_never_terminal (fun _ => Ok (Sample.status_body "queued")) _)).
  intros j _. exists (JStr "queued"). split; reflexivity.
Defined.

Section NdjsonErrors.
Import PyStr PowerBI.

Variable json_loads : string -> result json.

Lemma parse_lines_raise (before after : list string) (line : string)
    (acc : list json) (e : exn) :
  Forall (fun l => truthy (strip l) = false \/ exists v, json_loads l = Ok v) before ->
  truthy (strip line) = true ->
  json_loads line = Raise e ->
  parse_lines json_loads acc (before ++ line :: after) = Raise e.
Proof.
  intros H Hb He. revert acc. induction H as [|l rest Hl _ IH]; intros acc.
  - cbn [app parse_lines]. unfold parse_line. now rewrite Hb, He.
  - cbn [app parse_lines]. unfold parse_line.
    destruct (truthy (strip l)) eqn:Hbl; cbn [bind]; [|apply IH].
    destruct Hl as [Hl|(v & Hv)]; [discriminate|]. rewrite Hv. cbn [bind].
    destruct (Json.truthy v); cbn [bind]; apply IH.
Qed.

(** X20. A line that is not blank and is no JSON ends the parsing loop with
    the exception of [json.loads]: the values of the lines before it are
    lost, the lines after it are not read, and the script, unless the poll
    loop raised, ends with that exception and builds no table. *)
Theorem parse_ndjson_invalid_line (text line : string) (before after : list string)
    (e : exn) :
  split newline (strip text) = (before ++ line :: after)%list ->
  Forall (fun l => truthy (strip l) = false \/ exists v, json_loads l = Ok v) before ->
  truthy (strip line) = true ->
  json_loads line = Raise e ->
  parse_ndjson json_loads text = Raise e /\
  forall response_of,
    (forall e', snd (poll_loop response_of) <> Raised e') ->
    snd (run_from_poll json_loads response_of (Ok text)) = Raise e.
Proof.
  intros Hsplit Hbefore Hb He.
  assert (E : parse_ndjson json_loads text = Raise e).
  { unfold parse_ndjson. rewrite Hsplit. now apply parse_lines_raise. }
  split; [exact E|].
  intros response_of Hhow. unfold run_from_poll.
  destruct (poll_loop response_of) as [trace how]. cbn [snd] in Hhow.
  destruct how as [|e'|]; [exact E | now destruct (Hhow e') | exact E].
Qed.

(** X21. A results text with nothing but whitespace, the empty text
    included, gives no result and no error, whatever [json.loads] is: it is
    not called. *)
Theorem parse_ndjson_blank_text (text : string) :
  all_space text = true ->
  parse_ndjson json_loads text = Ok [].
Proof.
  intros H. unfold parse_ndjson. now rewrite (all_space_strip text H).
Qed.

End NdjsonErrors.

Lemma parse_ndjson_invalid_line_witness :
  PowerBI.parse_ndjson MiniJson.json_loads
    (Sample.object_a "1" ++ Sample.nl ++ "oops" ++ Sample.nl ++ Sample.object_a "2")
  = Raise (ValueError "Expecting value").
Proof.
  refine (proj1 (parse_ndjson_invalid_line MiniJson.json_loads _ "oops"
                   [Sample.object_a "1"] [Sample.object_a "2"] _ _ _ _ _)).
  - vm_compute. reflexivity.
  - constructor; [|constructor]. right. eexists. vm_compute. reflexivity.
  - reflexivity.
  - vm_compute. reflexivity.
Defined.

Lemma parse_ndjson_blank_text_witness :
  PowerBI.parse_ndjson (fun _ => Raise (ValueError "Expecting value"))
    (Sample.nl ++ "  " ++ Sample.nl)
  = Ok [].
Proof.
  apply (parse_ndjson_blank_text (fun _ => Raise (ValueError "Expecting value"))).
  reflexivity.
Defined.

Section TableShape.
Import PyStr PowerBI.

Variable conv : dtype_conversion.

Lemma NoDup_snoc (l : list string) (x : string) :
  List.NoDup l -> ~ In x l -> List.NoDup (l ++ [x]).
Proof.
  intros Hl Hx. apply List.NoDup_app; [exact Hl | repeat constructor; auto |].
  intros a Ha [<-|[]]. contradiction.
Qed.

Lemma union_keys_nodup (keys seen : list string) :
  List.NoDup seen -> List.NoDup (union_keys seen keys).
Proof.
  revert seen. induction keys as [|k rest IH]; intros seen H; [exact H|].
  cbn [union_keys]. apply IH. destruct (mem k seen) eqn:E; [exact H|].
  apply NoDup_snoc; [exact H|]. rewrite <- mem_in. congruence.
Qed.

Lemma filter_all_true {A} (f : A -> bool) (l : list A) :
  (forall x, In x l -> f x = true) -> List.filter f l = l.
Proof.
  induction l as [|x l IH]; intros H; [reflexivity|].
  cbn. rewrite (H x (or_introl eq_refl)). f_equal. apply IH. intros y Hy. apply H. now right.
Qed.

(** Filtering the cells of a row on their labels is filtering the labels. *)
Lemma filter_cells (keep : string -> bool) (get : string -> cell) (cols : list string) :
  List.filter (fun '(c, _) => keep c) (map (fun c => (c, get c)) cols)
  = map (fun c => (c, get c)) (List.filter keep cols).
Proof.
  induction cols as [|c cols IH]; [reflexivity|].
  cbn. destruct (keep c); cbn; now rewrite IH.
Qed.

Lemma map_fst_cells (get : string -> cell) (cols : list string) :
  map fst (map (fun c => (c, get c)) cols) = cols.
Proof. rewrite map_map. cbn. apply map_id. Qed.

Lemma from_records_row (results : list (list (string * json)))
    (i : nat) (r : list (string * cell)) :
  In (i, r) (rows (from_records conv results)) <->
  exists record,
    nth_error results i = Some record /\
    r = map (fun c => (c, as_dtype conv (map (Json.dict_get c) results)
                            (Json.dict_get c record)))
          (columns (from_records conv results)).
Proof.
  unfold from_records. cbn [rows columns].
  rewrite number_from_in, Nat.sub_0_r, nth_error_map. split.
  - intros [_ H]. destruct (nth_error results i) as [record|]; [|discriminate].
    injection H as <-. eauto.
  - intros (record & -> & ->). split; [lia | reflexivity].
Qed.

Lemma from_records_columns_in (results : list (list (string * json))) (c : string) :
  In c (columns (from_records conv results)) <->
  exists record, In record results /\ In c (map fst record).
Proof.
  unfold from_records. cbn [columns]. rewrite union_keys_in, in_flat_map.
  cbn. tauto.
Qed.

(** The row of the built table for the record at position [i]. *)
Lemma build_table_row (results : list (list (string * json)))
    (i : nat) (r : list (string * cell)) :
  In (i, r) (rows (build_table conv results)) ->
  exists record,
    nth_error results i = Some record /\
    r = map (fun c => (c, as_dtype conv (map (Json.dict_get c) results)
                            (Json.dict_get c record)))
          (columns (build_table conv results)).
Proof.
  unfold build_table. intros [Hin _]%dropna_all_in.
  apply drop_columns_from_records_in in Hin as (record & Hnth & ->).
  exists record. split; [exact Hnth|].
  cbn [columns dropna_all drop_columns from_records].
  apply (filter_cells (fun c => negb (mem c columns_to_remove))
           (fun c => as_dtype conv (map (Json.dict_get c) results)
                       (Json.dict_get c record))).
Qed.

(** X22. The columns of the built table are the keys of the records, each
    once, without the five removed ones: a label is a column exactly when
    some record has it as a key and it is not in the removal list.  Every
    row has one cell per column, in the order of the columns. *)
Theorem build_table_shape (results : list (list (string * json))) :
  List.NoDup (columns (build_table conv results)) /\
  (forall c,
     In c (columns (build_table conv results)) <->
     (exists record, In record results /\ In c (map fst record)) /\
     ~ In c columns_to_remove) /\
  (forall i r, In (i, r) (rows (build_table conv results)) ->
               map fst r = columns (build_table conv results)).
Proof.
  split; [|split].
  - cbn [build_table columns dropna_all drop_columns from_records].
    apply List.NoDup_filter, union_keys_nodup. constructor.
  - intros c. unfold build_table. cbn [columns dropna_all drop_columns].
    rewrite filter_In, from_records_columns_in, negb_true_iff.
    rewrite <- mem_in. destruct (mem c columns_to_remove); intuition congruence.
  - intros i r Hin. apply build_table_row in Hin as (record & _ & ->).
    apply map_fst_cells.
Qed.

Lemma drop_columns_noop (labels : list string) (df : DataFrame) :
  (forall c, In c (columns df) -> mem c labels = false) ->
  (forall i r c v, In (i, r) (rows df) -> In (c, v) r -> mem c labels = false) ->
  drop_columns labels df = df.
Proof.
  intros Hc Hr. destruct df as [cols rws]. unfold drop_columns. cbn [columns rows] in *.
  f_equal.
  - apply filter_all_true. intros c Hin. now rewrite (Hc c Hin).
  - rewrite <- (map_id rws) at 2. apply map_ext_in. intros [i r] Hin. f_equal.
    apply filter_all_true. intros [c v] Hcv. now rewrite (Hr i r c v Hin Hcv).
Qed.

(** X23. Removing columns that no record has changes nothing and raises
    nothing: when none of the labels is a key of a record, the frame after
    [drop] is the frame built from the records. *)
Theorem drop_columns_absent_noop (labels : list string)
    (results : list (list (string * json))) :
  (forall record c, In record results -> In c (map fst record) -> ~ In c labels) ->
  drop_columns labels (from_records conv results) = from_records conv results.
Proof.
  intros H.
  assert (Hcols : forall c, In c (columns (from_records conv results)) ->
                            mem c labels = false).
  { intros c (record & Hrec & Hc)%from_records_columns_in.
    destruct (mem c labels) eqn:E; [|reflexivity].
    apply mem_in in E. now destruct (H record c Hrec Hc). }
  apply drop_columns_noop; [exact Hcols|].
  intros i r c v (record & _ & ->)%from_records_row Hcv.
  apply Hcols. apply in_map_iff in Hcv as (c' & [= -> _] & Hc'). exact Hc'.
Qed.

Lemma number_from_labels {A} (l : list A) (start : nat) :
  map fst (number_from start l) = seq start (length l).
Proof.
  revert start. induction l as [|x l IH]; intros start; [reflexivity|].
  cbn. now rewrite IH.
Qed.

Lemma sublist_map_filter {A B} (g : A -> B) (f : A -> bool) (l : list A) :
  sublist (map g (List.filter f l)) (map g l).
Proof.
  induction l as [|x l IH]; cbn; [constructor|].
  destruct (f x); cbn; now constructor.
Qed.

(** X24. Every row of the built table comes from the record at the
    position that is its index label.  Its cell under a column is what
    pandas makes of the value the record has for that key when it converts
    the column to one dtype; the cell is missing exactly when the record has
    no such key, or has null or NaN there.  The rows keep the order of the
    records, so the labels go up, with gaps where rows were dropped. *)
Theorem build_table_rows_are_records (results : list (list (string * json))) :
  (forall i r,
     In (i, r) (rows (build_table conv results)) ->
     exists record,
       nth_error results i = Some record /\
       r = map (fun c => (c, as_dtype conv (map (Json.dict_get c) results)
                               (Json.dict_get c record)))
             (columns (build_table conv results)) /\
       forall c v,
         In (c, v) r ->
         (isna v = true <->
          Json.dict_get c record = None \/
          Json.dict_get c record = Some JNull \/
          Json.dict_get c record = Some (JFloat S754_nan))) /\
  sublist (map fst (rows (build_table conv results))) (seq 0 (length results)).
Proof.
  split.
  - intros i r Hin. destruct (build_table_row results i r Hin) as (record & Hnth & Hr).
    exists record. split; [exact Hnth|]. split; [exact Hr|].
    intros c v Hcv. rewrite Hr in Hcv.
    apply in_map_iff in Hcv as (c' & [= -> <-] & _).
    rewrite as_dtype_isna. apply isna_iff.
  - unfold build_table, dropna_all. cbn [rows].
    match goal with
    | |- sublist (map fst (List.filter ?f ?l)) _ =>
        transitivity (map fst l); [apply sublist_map_filter|]
    end.
    unfold drop_columns, from_records. cbn [rows columns].
    rewrite map_map.
    match goal with
    | |- sublist (map ?g (number_from 0 ?l)) _ =>
        replace (map g (number_from 0 l)) with (map fst (number_from 0 l))
          by (apply map_ext; now intros [i r])
    end.
    rewrite number_from_labels, length_map. reflexivity.
Qed.

End TableShape.

Lemma drop_columns_absent_noop_witness :
  PowerBI.drop_columns PowerBI.columns_to_remove
    (PowerBI.from_records Sample.values_kept
       [ [("a", JInt 1)]; [("b", JStr "x"); ("a", JInt 2)] ])
  = PowerBI.from_records Sample.values_kept
      [ [("a", JInt 1)]; [("b", JStr "x"); ("a", JInt 2)] ].
Proof.
  apply (drop_columns_absent_noop Sample.values_kept PowerBI.columns_to_remove
           [ [("a", JInt 1)]; [("b", JStr "x"); ("a", JInt 2)] ]).
  intros record c Hrec Hc Hrem. cbn in Hrec, Hrem.
  destruct Hrec as [<-|[<-|[]]]; cbn in Hc;
    intuition (subst; discriminate).
Defined.

Lemma build_table_shape_witness :
  map fst [("a", Some (JStr EmptyString))]
  = PowerBI.columns (PowerBI.build_table Sample.values_kept Sample.mixed_records).
Proof.
  apply (proj2 (proj2 (build_table_shape Sample.values_kept Sample.mixed_records))
           2%nat).
  vm_compute. auto.
Defined.

(** The record with an integer above 2^53 beside a missing cell: its row
    holds the rounded float, and is that record's all the same. *)
Lemma build_table_rows_are_records_witness :
  exists record,
    nth_error [ [("a", JInt 9007199254740993)]; [("b", JInt 1)] ] 0 = Some record /\
    [ ("a", Some (JFloat (S754_finite false 4503599627370496 1))); ("b", None) ]
    = map (fun c => (c, PowerBI.as_dtype float64_beside_missing
                          (map (Json.dict_get c)
                               [ [("a", JInt 9007199254740993)]; [("b", JInt 1)] ])
                          (Json.dict_get c record)))
          (PowerBI.columns
             (PowerBI.build_table float64_beside_missing
                [ [("a", JInt 9007199254740993)]; [("b", JInt 1)] ])).
Proof.
  destruct (proj1 (build_table_rows_are_records float64_beside_missing
                     [ [("a", JInt 9007199254740993)]; [("b", JInt 1)] ])
              0%nat
              [ ("a", Some (JFloat (S754_finite false 4503599627370496 1)));
                ("b", None) ])
    as (record & Hnth & Hr & _).
  - vm_compute. auto.
  - exists record. split; [exact Hnth | exact Hr].
Defined.
